(** * Neural Amp Modeler multi-instance module: a shallow embedding

    This development follows [src/wasm/nam-multi-instance.cpp]: the
    registry [instances] (a [std::map<int, std::unique_ptr<nam::DSP>>]), the
    counter [nextInstanceId], the globals [sampleRate], [maxBufferSize] and
    [fastTanhEnabled], and the thirteen [extern "C"] entry points.

    The engine [nam::DSP], the factory [nam::get_dsp] and the switch
    [nam::activations::Activation::enable_fast_tanh] are declared in the NAM
    headers and are not part of this translation unit; they are the members
    of the class [NamCore] below and every theorem is stated for an arbitrary
    instance of it. *)

From Stdlib Require Import ZArith SpecFloat.
From stdpp Require Import gmap strings list sorting.

Local Open Scope Z_scope.

(** ** Machine numbers *)

(** [int] is 32 bits wide on the Emscripten target.  C++ gives no meaning
    to a signed operation that leaves the range; the generated [i32]
    arithmetic wraps around in two's complement, and so does the model.  The
    theorems that depend on the instance counter bound the number of
    [nam_createInstance] calls so that the question does not arise. *)
Definition INT_MAX : Z := 2147483647.
Definition INT_MIN : Z := -2147483648.

Definition wrap_int (z : Z) : Z := (z + 2 ^ 31) mod 2 ^ 32 - 2 ^ 31.

(** [size_t] is the 32-bit unsigned type of the same target. *)
Definition wrap_size_t (z : Z) : Z := z mod 2 ^ 32.

(** A [float] or a [double] is modelled by the IEEE-754 value it holds
    ([spec_float]); the payload of a NaN is not represented. *)
Abbreviation float := spec_float (only parsing).
Abbreviation double := spec_float (only parsing).

Definition sizeof_float : Z := 4.

(** [48000.0f] is [12288000 * 2^-8] and [128] needs no rounding. *)
Definition float_48000 : float := S754_finite false 12288000 (-8).
Definition float_0 : float := S754_zero false.

(** [static_cast<float>(d)]: rounding to the nearest binary32 value, ties to
    even (24 bits of precision, exponents below 128). *)
Definition static_cast_float (d : double) : float :=
  match d with
  | S754_finite s m e => binary_round 24 128 s m e
  | _ => d
  end.

(** ** Outcomes of a call *)

(** A call returns a value, leaves by a C++ exception, or has no defined
    behaviour (a block copy outside its buffers). *)
Inductive outcome (A : Type) : Type :=
  | Returns (a : A)
  | Throws
  | Undefined.
Arguments Returns {A} a.
Arguments Throws {A}.
Arguments Undefined {A}.

Definition returned {A} (o : outcome A) : bool :=
  match o with Returns _ => true | _ => false end.

(** ** The external collaborator *)

(** The methods of [nam::DSP] used by the module, on the state of one
    engine.  A method that is not [const] gives back the state it leaves the
    engine in, also when it throws. *)
Class NamCore : Type := {
  DSP : Type;
  (** [nam::get_dsp(jsonStr)]: [Returns None] is the null pointer. *)
  get_dsp : string → outcome (option DSP);
  (** [dsp->Reset(sampleRate, maxBufferSize)] *)
  Reset : DSP → float → Z → outcome unit * DSP;
  (** [dsp->prewarm()] *)
  prewarm : DSP → outcome unit * DSP;
  (** [dsp->process(input, output, numFrames)]: the new contents of the
      output block. *)
  process : DSP → list float → list float → Z → outcome (list float) * DSP;
  (** [dsp->HasLoudness()] *)
  HasLoudness : DSP → bool;
  (** [dsp->GetLoudness()] *)
  GetLoudness : DSP → outcome double;
}.

(** ** The module's globals *)

Section NamModule.
Context {core : NamCore}.

(** The anonymous namespace of the source.  [enable_fast_tanh_calls] counts
    the calls made to [nam::activations::Activation::enable_fast_tanh()],
    whose effect lives in the collaborator. *)
Record state : Type := State {
  instances : gmap Z (option DSP);
  nextInstanceId : Z;
  sampleRate : float;
  maxBufferSize : Z;
  fastTanhEnabled : bool;
  enable_fast_tanh_calls : nat;
}.

Definition init_state : state :=
  {| instances := ∅;
     nextInstanceId := 0;
     sampleRate := float_48000;
     maxBufferSize := 128;
     fastTanhEnabled := false;
     enable_fast_tanh_calls := 0 |}.

Definition set_instances (m : gmap Z (option DSP)) (s : state) : state :=
  {| instances := m;
     nextInstanceId := nextInstanceId s;
     sampleRate := sampleRate s;
     maxBufferSize := maxBufferSize s;
     fastTanhEnabled := fastTanhEnabled s;
     enable_fast_tanh_calls := enable_fast_tanh_calls s |}.

(** ** Instance registry *)

(** [int id = nextInstanceId++; instances[id] = nullptr; return id;] *)
Definition nam_createInstance (s : state) : Z * state :=
  let id := nextInstanceId s in
  (id,
   {| instances := <[id := None]> (instances s);
      nextInstanceId := wrap_int (id + 1);
      sampleRate := sampleRate s;
      maxBufferSize := maxBufferSize s;
      fastTanhEnabled := fastTanhEnabled s;
      enable_fast_tanh_calls := enable_fast_tanh_calls s |}).

(** [find], then [erase] when found. *)
Definition nam_destroyInstance (id : Z) (s : state) : state :=
  match instances s !! id with
  | Some _ => set_instances (delete id (instances s)) s
  | None => s
  end.

(** [static_cast<int>(instances.size())] *)
Definition nam_getInstanceCount (s : state) : Z :=
  wrap_int (Z.of_nat (size (instances s))).

(** ** Loading and unloading *)

(** The body of [if (!fastTanhEnabled) { ... }].  The switch is a store to
    the collaborator's globals and is taken to return. *)
Definition ensure_fast_tanh (s : state) : state :=
  if fastTanhEnabled s then s
  else
    {| instances := instances s;
       nextInstanceId := nextInstanceId s;
       sampleRate := sampleRate s;
       maxBufferSize := maxBufferSize s;
       fastTanhEnabled := true;
       enable_fast_tanh_calls := S (enable_fast_tanh_calls s) |}.

(** The [try] block covers the switch, the factory, [Reset] and [prewarm];
    [catch (...)] turns an exception of any of them into the final
    [return false].  The local [dsp] is moved into the slot only after
    [prewarm] has returned. *)
Definition nam_loadModel (id : Z) (jsonStr : string) (s : state)
  : outcome bool * state :=
  match instances s !! id with
  | None => (Returns false, s)
  | Some _ =>
      let s1 := ensure_fast_tanh s in
      match get_dsp jsonStr with
      | Returns (Some dsp) =>
          match Reset dsp (sampleRate s1) (maxBufferSize s1) with
          | (Returns _, dsp1) =>
              match prewarm dsp1 with
              | (Returns _, dsp2) =>
                  (Returns true,
                   set_instances (<[id := Some dsp2]> (instances s1)) s1)
              | (Throws, _) => (Returns false, s1)
              | (Undefined, _) => (Undefined, s1)
              end
          | (Throws, _) => (Returns false, s1)
          | (Undefined, _) => (Undefined, s1)
          end
      | Returns None => (Returns false, s1)
      | Throws => (Returns false, s1)
      | Undefined => (Undefined, s1)
      end
  end.

(** [it->second.reset()] on a found entry. *)
Definition nam_unloadModel (id : Z) (s : state) : state :=
  match instances s !! id with
  | Some _ => set_instances (<[id := None]> (instances s)) s
  | None => s
  end.

(** [it != instances.end() && it->second != nullptr] *)
Definition nam_hasModel (id : Z) (s : state) : bool :=
  match instances s !! id with
  | Some (Some _) => true
  | _ => false
  end.

(** ** Processing *)

(** [std::memcpy(dst, src, n)] on two disjoint blocks of [float]s, [n] a
    number of bytes that is a multiple of [sizeof(float)].  Copying beyond
    the end of either block has no defined behaviour. *)
Definition memcpy (dst src : list float) (n : Z) : option (list float) :=
  let k := n / sizeof_float in
  if decide (k ≤ Z.of_nat (length src) ∧ k ≤ Z.of_nat (length dst))
  then Some (take (Z.to_nat k) src ++ drop (Z.to_nat k) dst)
  else None.

(** [numFrames * sizeof(float)]: the [int] is converted to [size_t] and the
    product is taken in [size_t]. *)
Definition bypass_bytes (numFrames : Z) : Z :=
  wrap_size_t (wrap_size_t numFrames * sizeof_float).

Definition nam_process (id : Z) (input output : list float) (numFrames : Z)
    (s : state) : outcome (list float) * state :=
  match instances s !! id with
  | Some (Some dsp) =>
      let '(r, dsp') := process dsp input output numFrames in
      (r, set_instances (<[id := Some dsp']> (instances s)) s)
  | _ =>
      match memcpy output input (bypass_bytes numFrames) with
      | Some out => (Returns out, s)
      | None => (Undefined, s)
      end
  end.

(** ** Global audio configuration *)

(** The handles of the registry in the order a range-based [for] over a
    [std::map<int, ...>] visits them: ascending. *)
Definition ordered_ids (m : gmap Z (option DSP)) : list Z :=
  merge_sort Z.le (elements (dom m)).

(** [for (auto& [id, dsp] : instances) if (dsp) dsp->Reset(rate, size);]
    over the handles [ids].  An exception of [Reset] is not caught: it ends
    the loop and leaves the function, the engines behind it untouched. *)
Fixpoint reset_each (rate : float) (size : Z) (ids : list Z)
    (m : gmap Z (option DSP)) : outcome unit * gmap Z (option DSP) :=
  match ids with
  | [] => (Returns (), m)
  | id :: ids' =>
      match m !! id with
      | Some (Some dsp) =>
          let '(r, dsp') := Reset dsp rate size in
          let m' := <[id := Some dsp']> m in
          match r with
          | Returns _ => reset_each rate size ids' m'
          | Throws => (Throws, m')
          | Undefined => (Undefined, m')
          end
      | _ => reset_each rate size ids' m
      end
  end.

Definition reset_all (rate : float) (size : Z) (m : gmap Z (option DSP))
  : outcome unit * gmap Z (option DSP) :=
  reset_each rate size (ordered_ids m) m.

(** [sampleRate = rate;] then the loop with [(rate, maxBufferSize)]. *)
Definition nam_setSampleRate (rate : float) (s : state) : outcome unit * state :=
  let '(r, m) := reset_all rate (maxBufferSize s) (instances s) in
  (r,
   {| instances := m;
      nextInstanceId := nextInstanceId s;
      sampleRate := rate;
      maxBufferSize := maxBufferSize s;
      fastTanhEnabled := fastTanhEnabled s;
      enable_fast_tanh_calls := enable_fast_tanh_calls s |}).

Definition nam_getSampleRate (s : state) : float := sampleRate s.

(** [maxBufferSize = size;] then the loop with [(sampleRate, maxBufferSize)]. *)
Definition nam_setMaxBufferSize (size : Z) (s : state) : outcome unit * state :=
  let '(r, m) := reset_all (sampleRate s) size (instances s) in
  (r,
   {| instances := m;
      nextInstanceId := nextInstanceId s;
      sampleRate := sampleRate s;
      maxBufferSize := size;
      fastTanhEnabled := fastTanhEnabled s;
      enable_fast_tanh_calls := enable_fast_tanh_calls s |}).

Definition nam_getMaxBufferSize (s : state) : Z := maxBufferSize s.

(** ** Loudness metadata and reset *)

(** [GetLoudness] is reached only behind the three guards. *)
Definition nam_getModelLoudness (id : Z) (s : state) : outcome float :=
  match instances s !! id with
  | Some (Some dsp) =>
      if HasLoudness dsp then
        match GetLoudness dsp with
        | Returns l => Returns (static_cast_float l)
        | Throws => Throws
        | Undefined => Undefined
        end
      else Returns float_0
  | _ => Returns float_0
  end.

Definition nam_hasModelLoudness (id : Z) (s : state) : bool :=
  match instances s !! id with
  | Some (Some dsp) => HasLoudness dsp
  | _ => false
  end.

(** [it->second->Reset(sampleRate, maxBufferSize)] on a found, loaded entry. *)
Definition nam_reset (id : Z) (s : state) : outcome unit * state :=
  match instances s !! id with
  | Some (Some dsp) =>
      let '(r, dsp') := Reset dsp (sampleRate s) (maxBufferSize s) in
      (r, set_instances (<[id := Some dsp']> (instances s)) s)
  | _ => (Returns (), s)
  end.

(** ** Sequences of calls *)

(** One call of the host to an exported function, with its arguments. *)
Inductive op : Type :=
  | CreateInstance
  | DestroyInstance (id : Z)
  | GetInstanceCount
  | LoadModel (id : Z) (jsonStr : string)
  | UnloadModel (id : Z)
  | HasModel (id : Z)
  | Process (id : Z) (input output : list float) (numFrames : Z)
  | SetSampleRate (rate : float)
  | GetSampleRate
  | SetMaxBufferSize (size : Z)
  | GetMaxBufferSize
  | GetModelLoudness (id : Z)
  | HasModelLoudness (id : Z)
  | ResetInstance (id : Z).

(** What a call hands back: its return value, or the output block for
    [nam_process]. *)
Inductive value : Type :=
  | VVoid
  | VInt (z : Z)
  | VBool (b : bool)
  | VFloat (f : float)
  | VBlock (out : list float).

Definition map_outcome {A B} (f : A → B) (o : outcome A) : outcome B :=
  match o with
  | Returns a => Returns (f a)
  | Throws => Throws
  | Undefined => Undefined
  end.

Definition step (o : op) (s : state) : outcome value * state :=
  match o with
  | CreateInstance =>
      let '(id, s') := nam_createInstance s in (Returns (VInt id), s')
  | DestroyInstance id => (Returns VVoid, nam_destroyInstance id s)
  | GetInstanceCount => (Returns (VInt (nam_getInstanceCount s)), s)
  | LoadModel id jsonStr =>
      let '(r, s') := nam_loadModel id jsonStr s in (map_outcome VBool r, s')
  | UnloadModel id => (Returns VVoid, nam_unloadModel id s)
  | HasModel id => (Returns (VBool (nam_hasModel id s)), s)
  | Process id input output numFrames =>
      let '(r, s') := nam_process id input output numFrames s in
      (map_outcome VBlock r, s')
  | SetSampleRate rate =>
      let '(r, s') := nam_setSampleRate rate s in
      (map_outcome (λ _, VVoid) r, s')
  | GetSampleRate => (Returns (VFloat (nam_getSampleRate s)), s)
  | SetMaxBufferSize size =>
      let '(r, s') := nam_setMaxBufferSize size s in
      (map_outcome (λ _, VVoid) r, s')
  | GetMaxBufferSize => (Returns (VInt (nam_getMaxBufferSize s)), s)
  | GetModelLoudness id => (map_outcome VFloat (nam_getModelLoudness id s), s)
  | HasModelLoudness id => (Returns (VBool (nam_hasModelLoudness id s)), s)
  | ResetInstance id =>
      let '(r, s') := nam_reset id s in (map_outcome (λ _, VVoid) r, s')
  end.

(** One executed call: the state it started in, the call, its outcome. *)
Record event : Type := Event {
  ev_pre : state;
  ev_op : op;
  ev_out : outcome value;
}.

(** The calls [ops] made one after the other from [s].  A call that leaves by
    an exception is followed by the next call, in the state the exception
    left behind; a call without defined behaviour ends the run. *)
Fixpoint run (ops : list op) (s : state) : list event * state :=
  match ops with
  | [] => ([], s)
  | o :: ops' =>
      let '(r, s') := step o s in
      match r with
      | Undefined => ([Event s o r], s')
      | _ => let '(tr, s'') := run ops' s' in (Event s o r :: tr, s'')
      end
  end.

End NamModule.

(** * The vocabulary of the properties *)

Section NamVocabulary.
Context {core : NamCore}.

(** ** Processing without an engine *)

(** [out] is [output] with its first [n] samples replaced by the first [n]
    samples of [input]. *)
Definition bypass_copy (input output : list float) (n : Z) (out : list float)
  : Prop :=
  take (Z.to_nat n) out = take (Z.to_nat n) input
  ∧ drop (Z.to_nat n) out = drop (Z.to_nat n) output
  ∧ length out = length output.

(** [nam_process] returns, leaves the state alone and hands back such a
    block. *)
Definition bypasses (id : Z) (input output : list float) (n : Z) (s : state)
  : Prop :=
  ∃ out, nam_process id input output n s = (Returns out, s)
         ∧ bypass_copy input output n out.

(** ** Frames *)

(** The slot of [h'] and the two configuration globals are in [s'] what
    they are in [s]. *)
Definition untouched (h' : Z) (s s' : state) : Prop :=
  instances s' !! h' = instances s !! h'
  ∧ sampleRate s' = sampleRate s
  ∧ maxBufferSize s' = maxBufferSize s.

(** A call keeps the shape of the registry when it leaves the set of handles
    and the counter as they are, and keeps the activation when it leaves the
    flag and the number of calls to the switch as they are. *)
Definition keeps_shape (s s' : state) : Prop :=
  dom (instances s') = dom (instances s)
  ∧ nextInstanceId s' = nextInstanceId s.

Definition keeps_activation (s s' : state) : Prop :=
  fastTanhEnabled s' = fastTanhEnabled s
  ∧ enable_fast_tanh_calls s' = enable_fast_tanh_calls s.

(** ** Configuration *)

(** What the loop makes of one slot when it runs to its end: an engine is
    the one [Reset] left behind, with [Reset] having returned; an empty or
    missing slot stays as it is. *)
Definition reconfigured (rate : float) (size : Z)
    (old new : option (option DSP)) : Prop :=
  match old with
  | Some (Some dsp) =>
      ∃ dsp', Reset dsp rate size = (Returns (), dsp') ∧ new = Some (Some dsp')
  | _ => new = old
  end.

(** ** Runs *)

Definition is_create (o : op) : bool :=
  match o with CreateInstance => true | _ => false end.

(** The number of [nam_createInstance] calls among [ops]. *)
Definition count_creates (ops : list op) : nat :=
  length (List.filter is_create ops).

(** The handle an executed [nam_createInstance] call returned. *)
Definition issued_handle (e : event) : option Z :=
  match ev_op e, ev_out e with
  | CreateInstance, Returns (VInt id) => Some id
  | _, _ => None
  end.

(** The handles issued along a run, oldest first. *)
Definition issued (tr : list event) : list Z := omap issued_handle tr.

(** The number of [nam_createInstance] calls executed in a run. *)
Definition creates_made (tr : list event) : nat :=
  length (List.filter (λ e, is_create (ev_op e)) tr).

(** A [nam_destroyInstance] call whose handle is in the registry when the
    call is made. *)
Definition matched_destroy (s : state) (o : op) : bool :=
  match o with
  | DestroyInstance id => bool_decide (is_Some (instances s !! id))
  | _ => false
  end.

Definition destroys_matched (tr : list event) : nat :=
  length (List.filter (λ e, matched_destroy (ev_pre e) (ev_op e)) tr).

(** Every handle of the registry lies below the counter. *)
Definition below_counter (s : state) : Prop :=
  0 ≤ nextInstanceId s
  ∧ ∀ h, h ∈ dom (instances s) → h < nextInstanceId s.

(** ** Activation *)

(** The switch has been called once when the flag is up, never otherwise. *)
Definition switched_once (s : state) : Prop :=
  enable_fast_tanh_calls s = if fastTanhEnabled s then 1%nat else 0%nat.

(** A [nam_loadModel] call made on a handle that is in the registry. *)
Definition load_on_live (e : event) : Prop :=
  ∃ id jsonStr,
    ev_op e = LoadModel id jsonStr ∧ is_Some (instances (ev_pre e) !! id).

(** ** Histories *)

(** A slot of the registry that holds an engine. *)
Definition loaded (slot : option (option DSP)) : bool :=
  match slot with
  | Some (Some _) => true
  | _ => false
  end.

(** Whether the handle [h] holds a model after the executed call [e], when
    [b] tells whether it did before: a [nam_loadModel] of [h] that returned
    true puts one there; [nam_unloadModel] and [nam_destroyInstance] of [h],
    and a [nam_createInstance] that returned [h], leave none. *)
Definition model_after (h : Z) (b : bool) (e : event) : bool :=
  match ev_op e, ev_out e with
  | LoadModel id _, Returns (VBool true) => if decide (id = h) then true else b
  | UnloadModel id, _ => if decide (id = h) then false else b
  | DestroyInstance id, _ => if decide (id = h) then false else b
  | CreateInstance, Returns (VInt id) => if decide (id = h) then false else b
  | _, _ => b
  end.

(** The handles in use after the executed call [e], when [L] were in use
    before. *)
Definition live_after (L : gset Z) (e : event) : gset Z :=
  match ev_op e, ev_out e with
  | CreateInstance, Returns (VInt id) => {[id]} ∪ L
  | DestroyInstance id, _ => L ∖ {[id]}
  | _, _ => L
  end.

(** The sample rate and the maximum buffer size last asked for. *)
Definition rate_after (r : float) (e : event) : float :=
  match ev_op e with
  | SetSampleRate rate => rate
  | _ => r
  end.

Definition size_after (n : Z) (e : event) : Z :=
  match ev_op e with
  | SetMaxBufferSize size => size
  | _ => n
  end.

(** The calls that reach a method of an engine outside a [try] block. *)
Definition may_throw (o : op) : bool :=
  match o with
  | Process _ _ _ _ | SetSampleRate _ | SetMaxBufferSize _
  | GetModelLoudness _ | ResetInstance _ => true
  | _ => false
  end.

(** The loop over the registry [m] stopped at the handle [h] and left
    [m']: the engine of [h] threw in [Reset] and is in the state the
    exception left it in, the slots of the smaller handles have been through
    the loop, the slots of the larger handles have not been reached. *)
Definition stopped_at (rate : float) (size : Z)
    (m m' : gmap Z (option DSP)) (h : Z) : Prop :=
  ∃ dsp dsp',
    m !! h = Some (Some dsp)
    ∧ Reset dsp rate size = (Throws, dsp')
    ∧ m' !! h = Some (Some dsp')
    ∧ (∀ k, k < h → reconfigured rate size (m !! k) (m' !! k))
    ∧ (∀ k, h < k → m' !! k = m !! k).

End NamVocabulary.

(** * A small collaborator to run the module on *)

(** An engine that remembers how it was configured and writes silence. *)
Record toy_dsp : Type := ToyDsp {
  toy_rate : float;
  toy_size : Z;
  toy_warm : bool;
  toy_loudness : option double;
}.

(** [-18.0] as a binary64 value. *)
Definition minus_18 : double := S754_finite true 5066549580791808 (-48).

(** The empty text does not parse (the factory throws), ["null"] gives no
    engine, ["quiet"] an engine without loudness metadata, any other text an
    engine whose loudness is [-18.0]. *)
Definition toy_get_dsp (jsonStr : string) : outcome (option toy_dsp) :=
  if decide (jsonStr = "") then Throws
  else if decide (jsonStr = "null") then Returns None
  else if decide (jsonStr = "quiet")
       then Returns (Some (ToyDsp float_0 0 false None))
       else Returns (Some (ToyDsp float_0 0 false (Some minus_18))).

Definition toy_Reset (d : toy_dsp) (rate : float) (size : Z)
  : outcome unit * toy_dsp :=
  (Returns (), ToyDsp rate size (toy_warm d) (toy_loudness d)).

Definition toy_prewarm (d : toy_dsp) : outcome unit * toy_dsp :=
  (Returns (), ToyDsp (toy_rate d) (toy_size d) true (toy_loudness d)).

Definition toy_process (d : toy_dsp) (input output : list float) (n : Z)
  : outcome (list float) * toy_dsp :=
  (Returns (replicate (Z.to_nat n) float_0 ++ drop (Z.to_nat n) output), d).

Definition toy_GetLoudness (d : toy_dsp) : outcome double :=
  match toy_loudness d with
  | Some l => Returns l
  | None => Throws
  end.

Definition toy_core : NamCore :=
  {| DSP := toy_dsp;
     get_dsp := toy_get_dsp;
     Reset := toy_Reset;
     prewarm := toy_prewarm;
     process := toy_process;
     HasLoudness := λ d, bool_decide (is_Some (toy_loudness d));
     GetLoudness := toy_GetLoudness |}.

(** Three samples used in the examples: [1.0], [-2.0] and [0.5]. *)
Definition f_1 : float := S754_finite false 8388608 (-23).
Definition f_m2 : float := S754_finite true 8388608 (-22).
Definition f_half : float := S754_finite false 8388608 (-24).

(** [44100.0f] *)
Definition f_44100 : float := S754_finite false 11289600 (-8).

(** One instance with a model, one with a model that has no loudness
    metadata, one empty. *)
Definition three_instances : @state toy_core :=
  (run (core := toy_core) [CreateInstance; LoadModel 0 "amp";
        CreateInstance; LoadModel 1 "quiet";
        CreateInstance] init_state).2.

(** ** A collaborator whose engines can refuse *)

(** An engine with a largest block size: [Reset] with a larger one throws
    and leaves the engine as it is, and so does [process] with more frames
    than the engine was configured for; otherwise [process] copies. *)
Record fragile_dsp : Type := FragileDsp {
  fragile_limit : Z;
  fragile_size : Z;
}.

(** ["small"] gives an engine limited to 128 frames, any other text one
    limited to 4096. *)
Definition fragile_get_dsp (jsonStr : string) : outcome (option fragile_dsp) :=
  if decide (jsonStr = "small") then Returns (Some (FragileDsp 128 0))
  else Returns (Some (FragileDsp 4096 0)).

Definition fragile_Reset (d : fragile_dsp) (rate : float) (size : Z)
  : outcome unit * fragile_dsp :=
  if decide (size ≤ fragile_limit d)
  then (Returns (), FragileDsp (fragile_limit d) size)
  else (Throws, d).

Definition fragile_process (d : fragile_dsp) (input output : list float) (n : Z)
  : outcome (list float) * fragile_dsp :=
  if decide (n ≤ fragile_size d)
  then (Returns (take (Z.to_nat n) input ++ drop (Z.to_nat n) output), d)
  else (Throws, d).

Definition fragile_core : NamCore :=
  {| DSP := fragile_dsp;
     get_dsp := fragile_get_dsp;
     Reset := fragile_Reset;
     prewarm := λ d, (Returns (), d);
     process := fragile_process;
     HasLoudness := λ _, false;
     GetLoudness := λ _, Throws |}.

(** A large, a small and a large engine on the handles 0, 1 and 2. *)
Definition large_small_large : @state fragile_core :=
  (run (core := fragile_core)
     [CreateInstance; LoadModel 0 "large";
      CreateInstance; LoadModel 1 "small";
      CreateInstance; LoadModel 2 "large"] init_state).2.

(** * Properties *)

Section NamProperties.
Context {core : NamCore}.

(** ** Arithmetic of the machine types *)

Lemma wrap_int_id (z : Z) : INT_MIN ≤ z ≤ INT_MAX → wrap_int z = z.
Proof.
  unfold wrap_int, INT_MIN, INT_MAX. intros Hz.
  rewrite Z.mod_small by lia. lia.
Qed.

Lemma bypass_bytes_frames (n : Z) :
  0 ≤ n < 2 ^ 30 → bypass_bytes n / sizeof_float = n.
Proof.
  unfold bypass_bytes, wrap_size_t, sizeof_float. intros Hn.
  rewrite (Z.mod_small n) by lia.
  rewrite Z.mod_small by lia.
  apply Z.div_mul. lia.
Qed.

(** ** The bypass path *)

Lemma memcpy_frames (dst src : list float) (n : Z) :
  0 ≤ n < 2 ^ 30 →
  n ≤ Z.of_nat (length src) → n ≤ Z.of_nat (length dst) →
  ∃ out, memcpy dst src (bypass_bytes n) = Some out ∧ bypass_copy src dst n out.
Proof.
  intros Hn Hsrc Hdst. unfold memcpy.
  rewrite bypass_bytes_frames by done.
  rewrite decide_True by done.
  eexists; split; [done|]. unfold bypass_copy.
  assert (length (take (Z.to_nat n) src) = Z.to_nat n) as Hlen
    by (rewrite length_take; lia).
  repeat split.
  - rewrite take_app_le by lia. rewrite take_take. f_equal. lia.
  - rewrite drop_app_ge by lia. rewrite Hlen, Nat.sub_diag. done.
  - rewrite length_app, Hlen, length_drop. lia.
Qed.

Lemma nam_process_bypass (id : Z) (input output : list float) (n : Z) (s : state) :
  nam_hasModel id s = false →
  0 ≤ n → n ≤ Z.of_nat (length input) → n ≤ Z.of_nat (length output) →
  Z.of_nat (length output) * sizeof_float < 2 ^ 32 →
  ∃ out, nam_process id input output n s = (Returns out, s)
         ∧ bypass_copy input output n out.
Proof.
  intros Hno Hn Hin Hout Hfit.
  assert (0 ≤ n < 2 ^ 30) as Hn' by (unfold sizeof_float in Hfit; lia).
  destruct (memcpy_frames output input n Hn' Hin Hout) as (out & Hcp & Hout').
  exists out. split; [|done].
  unfold nam_process, nam_hasModel in *.
  destruct (instances s !! id) as [[dsp|]|]; [done| |]; by rewrite Hcp.
Qed.

Lemma nam_hasModel_false (id : Z) (s : state) :
  nam_hasModel id s = false
  ↔ instances s !! id = None ∨ instances s !! id = Some None.
Proof.
  unfold nam_hasModel.
  destruct (instances s !! id) as [[dsp|]|]; split; intros Hc;
    try done; try (by left); try (by right); by destruct Hc.
Qed.

Lemma created_instance_empty (s : state) :
  instances (nam_createInstance s).2 !! (nam_createInstance s).1 = Some None.
Proof. simpl. apply lookup_insert_eq. Qed.

Lemma destroyed_instance_absent (id : Z) (s : state) :
  instances (nam_destroyInstance id s) !! id = None.
Proof.
  unfold nam_destroyInstance.
  destruct (instances s !! id) eqn:Hid; [|done].
  simpl. apply lookup_delete_eq.
Qed.

(** C1: on a handle that is not in the registry, or is there without an
    engine, [nam_process] returns normally, leaves the module's state as it
    was and hands back the output block with its first [numFrames] samples
    equal to the first [numFrames] input samples, in the same order; this
    covers the instance just created and the handle just destroyed.  The
    blocks hold at least [numFrames] samples and fit the address space. *)
Theorem process_without_engine_copies_input
    (input output : list float) (numFrames : Z) :
  0 ≤ numFrames →
  numFrames ≤ Z.of_nat (length input) →
  numFrames ≤ Z.of_nat (length output) →
  Z.of_nat (length output) * sizeof_float < 2 ^ 32 →
  (∀ id s, instances s !! id = None ∨ instances s !! id = Some None →
     bypasses id input output numFrames s)
  ∧ (∀ s, bypasses (nam_createInstance s).1 input output numFrames
            (nam_createInstance s).2)
  ∧ (∀ id s, bypasses id input output numFrames (nam_destroyInstance id s)).
Proof.
  intros Hn Hin Hout Hfit.
  assert (∀ id s, instances s !! id = None ∨ instances s !! id = Some None →
            bypasses id input output numFrames s) as Hgen.
  { intros id s Hslot. apply nam_process_bypass; try done.
    by apply nam_hasModel_false. }
  split; [done|]. split.
  - intros s. apply Hgen. right. apply created_instance_empty.
  - intros id s. apply Hgen. left. apply destroyed_instance_absent.
Qed.

(** ** Destroying and unloading *)

Lemma set_instances_same (s : state) : set_instances (instances s) s = s.
Proof. by destruct s. Qed.

(** C9: [nam_destroyInstance] on a handle that is not in the registry gives
    back the very same state, and destroying a handle twice gives the state
    that destroying it once gives. *)
Theorem destroyInstance_idempotent (id : Z) (s : state) :
  (instances s !! id = None → nam_destroyInstance id s = s)
  ∧ nam_destroyInstance id (nam_destroyInstance id s) = nam_destroyInstance id s.
Proof.
  assert (∀ s', instances s' !! id = None → nam_destroyInstance id s' = s')
    as Hnone.
  { intros s' Hid. unfold nam_destroyInstance. by rewrite Hid. }
  split; [apply Hnone|].
  apply Hnone, destroyed_instance_absent.
Qed.

Lemma unloadModel_lookup (id id' : Z) (s : state) :
  instances (nam_unloadModel id s) !! id'
  = if decide (id = id') then (λ _, None) <$> instances s !! id
    else instances s !! id'.
Proof.
  unfold nam_unloadModel.
  destruct (instances s !! id) as [slot|] eqn:Hid; simpl.
  - rewrite lookup_insert. by repeat case_decide; subst.
  - case_decide; subst; [by rewrite Hid | done].
Qed.

(** C7: after [nam_unloadModel] a handle of the registry is still in the
    registry, its slot is empty, [nam_hasModel] answers false and
    [nam_process] copies the input; on a handle that is unknown or holds no
    engine the call changes nothing.  The call has no failing path. *)
Theorem unloadModel_leaves_empty_slot (id : Z) (s : state) :
  dom (instances (nam_unloadModel id s)) = dom (instances s)
  ∧ (is_Some (instances s !! id) →
       instances (nam_unloadModel id s) !! id = Some None)
  ∧ nam_hasModel id (nam_unloadModel id s) = false
  ∧ (∀ input output numFrames,
       0 ≤ numFrames →
       numFrames ≤ Z.of_nat (length input) →
       numFrames ≤ Z.of_nat (length output) →
       Z.of_nat (length output) * sizeof_float < 2 ^ 32 →
       bypasses id input output numFrames (nam_unloadModel id s))
  ∧ (nam_hasModel id s = false → nam_unloadModel id s = s).
Proof.
  assert (nam_hasModel id (nam_unloadModel id s) = false) as Hno.
  { unfold nam_hasModel. rewrite unloadModel_lookup, decide_True by done.
    by destruct (instances s !! id). }
  split_and!.
  - apply set_eq. intros k. rewrite !elem_of_dom, unloadModel_lookup.
    case_decide; subst; [|done]. by rewrite fmap_is_Some.
  - intros [slot Hid]. by rewrite unloadModel_lookup, decide_True, Hid.
  - done.
  - intros input output n Hn Hin Hout Hfit. by apply nam_process_bypass.
  - intros Hempty. apply nam_hasModel_false in Hempty.
    unfold nam_unloadModel. destruct Hempty as [Hid|Hid]; rewrite Hid; [done|].
    rewrite insert_id by done. apply set_instances_same.
Qed.

(** ** Loading *)

Lemma ensure_fast_tanh_frame (s : state) :
  instances (ensure_fast_tanh s) = instances s
  ∧ nextInstanceId (ensure_fast_tanh s) = nextInstanceId s
  ∧ sampleRate (ensure_fast_tanh s) = sampleRate s
  ∧ maxBufferSize (ensure_fast_tanh s) = maxBufferSize s.
Proof. unfold ensure_fast_tanh. by destruct (fastTanhEnabled s). Qed.

(** Every way [nam_loadModel] can end, with the state it ends in. *)
Lemma nam_loadModel_cases (id : Z) (jsonStr : string) (s : state) :
  (nam_loadModel id jsonStr s = (Returns false, s)
   ∧ instances s !! id = None)
  ∨ (is_Some (instances s !! id)
     ∧ ((nam_loadModel id jsonStr s = (Returns false, ensure_fast_tanh s))
        ∨ (nam_loadModel id jsonStr s = (Undefined, ensure_fast_tanh s))
        ∨ (∃ dsp dsp1 dsp2 u1 u2,
             get_dsp jsonStr = Returns (Some dsp)
             ∧ Reset dsp (sampleRate s) (maxBufferSize s) = (Returns u1, dsp1)
             ∧ prewarm dsp1 = (Returns u2, dsp2)
             ∧ nam_loadModel id jsonStr s
               = (Returns true,
                  set_instances (<[id := Some dsp2]> (instances s))
                    (ensure_fast_tanh s))))).
Proof.
  unfold nam_loadModel.
  destruct (ensure_fast_tanh_frame s) as (Hm & _ & Hr & Hb).
  destruct (instances s !! id) as [slot|] eqn:Hid; [right|by left].
  split; [done|]. rewrite Hr, Hb, Hm.
  destruct (get_dsp jsonStr) as [[dsp|]| |]; try by auto.
  destruct (Reset dsp (sampleRate s) (maxBufferSize s)) as [[u1| |] dsp1] eqn:HR;
    try by auto.
  destruct (prewarm dsp1) as [[u2| |] dsp2] eqn:HP; try by auto.
  right; right. by exists dsp, dsp1, dsp2, u1, u2.
Qed.

(** C2: [nam_loadModel] returns false when the handle is unknown, when the
    factory returns no engine and when the factory throws; and whenever it
    returns false the registry is the one it started with, so the slot of
    the handle holds what it held and [nam_hasModel] answers as before. *)
Theorem loadModel_failure_keeps_slot (id : Z) (jsonStr : string) (s : state) :
  (instances s !! id = None ∨ get_dsp jsonStr = Returns None
   ∨ get_dsp jsonStr = Throws →
   (nam_loadModel id jsonStr s).1 = Returns false)
  ∧ ((nam_loadModel id jsonStr s).1 = Returns false →
     instances (nam_loadModel id jsonStr s).2 = instances s
     ∧ instances (nam_loadModel id jsonStr s).2 !! id = instances s !! id
     ∧ nam_hasModel id (nam_loadModel id jsonStr s).2 = nam_hasModel id s).
Proof.
  split.
  - unfold nam_loadModel. intros [Hid|[Hnull|Hthrow]].
    + by rewrite Hid.
    + rewrite Hnull. by destruct (instances s !! id).
    + rewrite Hthrow. by destruct (instances s !! id).
  - intros Hfail.
    assert (instances (nam_loadModel id jsonStr s).2 = instances s) as Hsame.
    { destruct (nam_loadModel_cases id jsonStr s)
        as [[Hl _]|[_ [Hl|[Hl|(?&?&?&?&?&_&_&_&Hl)]]]];
        rewrite Hl in Hfail |- *; simpl in *; try done;
        apply ensure_fast_tanh_frame. }
    unfold nam_hasModel. by rewrite Hsame.
Qed.

(** ** Loudness metadata *)

(** C8: for a handle that is unknown, holds no engine, or holds an engine
    without loudness metadata, [nam_getModelLoudness] returns [0.0f] and
    [nam_hasModelLoudness] returns false, whatever [GetLoudness] would do;
    for an engine with loudness metadata [nam_hasModelLoudness] returns true
    and [nam_getModelLoudness] returns the value [GetLoudness] returns, as a
    [float]; and [nam_getModelLoudness] returns normally for every handle as
    long as [GetLoudness] does on the engines that have loudness metadata
    ([nam_hasModelLoudness] calls nothing that can throw). *)
Theorem loudness_queries (id : Z) (s : state) :
  (instances s !! id = None ∨ instances s !! id = Some None
   ∨ (∃ dsp, instances s !! id = Some (Some dsp) ∧ HasLoudness dsp = false) →
   nam_getModelLoudness id s = Returns float_0
   ∧ nam_hasModelLoudness id s = false)
  ∧ (∀ dsp l,
       instances s !! id = Some (Some dsp) → HasLoudness dsp = true →
       GetLoudness dsp = Returns l →
       nam_hasModelLoudness id s = true
       ∧ nam_getModelLoudness id s = Returns (static_cast_float l))
  ∧ ((∀ dsp, instances s !! id = Some (Some dsp) → HasLoudness dsp = true →
        returned (GetLoudness dsp) = true) →
     returned (nam_getModelLoudness id s) = true).
Proof.
  unfold nam_getModelLoudness, nam_hasModelLoudness. split_and!.
  - intros [Hid|[Hid|(dsp & Hid & Hno)]]; rewrite Hid; [done..|].
    by rewrite Hno.
  - intros dsp l Hid Hhas Hget. by rewrite Hid, Hhas, Hget.
  - intros Hengine.
    destruct (instances s !! id) as [[dsp|]|]; [|done..].
    destruct (HasLoudness dsp) eqn:Hhas; [|done].
    specialize (Hengine dsp eq_refl Hhas).
    by destruct (GetLoudness dsp).
Qed.

(** ** What a call on one handle leaves alone *)

(** C10: [nam_loadModel], [nam_unloadModel], [nam_reset],
    [nam_destroyInstance] and [nam_process] on a handle [h] leave the slot
    of every other handle, the sample rate and the maximum buffer size as
    they were, however the call ends. *)
Theorem per_handle_calls_frame (h h' : Z) (s : state) :
  h' ≠ h →
  (∀ jsonStr, untouched h' s (nam_loadModel h jsonStr s).2)
  ∧ untouched h' s (nam_unloadModel h s)
  ∧ untouched h' s (nam_reset h s).2
  ∧ untouched h' s (nam_destroyInstance h s)
  ∧ (∀ input output numFrames,
       untouched h' s (nam_process h input output numFrames s).2).
Proof.
  intros Hne. split_and!; unfold untouched.
  - intros jsonStr.
    destruct (ensure_fast_tanh_frame s) as (Hm & _ & Hr & Hb).
    destruct (nam_loadModel_cases h jsonStr s)
      as [[Hl _]|[_ [Hl|[Hl|(?&?&?&?&?&_&_&_&Hl)]]]];
      rewrite Hl; simpl; rewrite ?Hm, ?Hr, ?Hb; try done.
    by rewrite lookup_insert_ne.
  - rewrite unloadModel_lookup, decide_False by done.
    unfold nam_unloadModel. by destruct (instances s !! h).
  - unfold nam_reset. destruct (instances s !! h) as [[dsp|]|]; try done.
    destruct (Reset dsp (sampleRate s) (maxBufferSize s)) as [r dsp'].
    simpl. by rewrite lookup_insert_ne.
  - unfold nam_destroyInstance. destruct (instances s !! h); try done.
    simpl. by rewrite lookup_delete_ne.
  - intros input output n. unfold nam_process.
    destruct (instances s !! h) as [[dsp|]|].
    + destruct (process dsp input output n) as [r dsp'].
      simpl. by rewrite lookup_insert_ne.
    + by destruct (memcpy output input (bypass_bytes n)).
    + by destruct (memcpy output input (bypass_bytes n)).
Qed.

(** ** Propagation of the configuration *)

Lemma reset_each_returns (rate : float) (size : Z) (ids : list Z) :
  NoDup ids →
  ∀ m m' u, reset_each rate size ids m = (Returns u, m') →
  ∀ h, (h ∈ ids → reconfigured rate size (m !! h) (m' !! h))
       ∧ (h ∉ ids → m' !! h = m !! h).
Proof.
  induction 1 as [|id ids Hnotin Hnodup IH]; intros m m' u Hrun h.
  - simpl in Hrun. injection Hrun as _ <-. split; [|done].
    intros Hin. by apply elem_of_nil in Hin.
  - simpl in Hrun.
    assert (reset_each rate size ids m = (Returns u, m') →
            reconfigured rate size (m !! id) (m !! id) →
            (h ∈ id :: ids → reconfigured rate size (m !! h) (m' !! h))
            ∧ (h ∉ id :: ids → m' !! h = m !! h)) as skipped.
    { intros Hrest Hslot.
      destruct (IH _ _ _ Hrest h) as [IHin IHout].
      destruct (decide (h = id)) as [->|Hne].
      - rewrite (IHout Hnotin).
        split; [done|by rewrite not_elem_of_cons; intros []].
      - rewrite !elem_of_cons. clear IH. tauto. }
    destruct (m !! id) as [[dsp|]|] eqn:Hid.
    + clear skipped.
      destruct (Reset dsp rate size) as [[[]| |] dsp'] eqn:HR; try done.
      destruct (IH _ _ _ Hrun h) as [IHin IHout].
      destruct (decide (h = id)) as [->|Hne].
      * destruct (IH _ _ _ Hrun id) as [_ Hkeep].
        rewrite (Hkeep Hnotin), lookup_insert_eq, Hid.
        split; [|by rewrite not_elem_of_cons; intros []].
        intros _. simpl. by exists dsp'.
      * rewrite lookup_insert_ne in IHin, IHout by done.
        rewrite !elem_of_cons. clear IH. tauto.
    + by apply skipped.
    + by apply skipped.
Qed.

Lemma ordered_ids_spec (m : gmap Z (option DSP)) :
  NoDup (ordered_ids m) ∧ ∀ h, h ∈ ordered_ids m ↔ is_Some (m !! h).
Proof.
  unfold ordered_ids.
  pose proof (merge_sort_Permutation Z.le (elements (dom m))) as Hperm.
  split.
  - rewrite Hperm. apply NoDup_elements.
  - intros h. rewrite Hperm, elem_of_elements. apply elem_of_dom.
Qed.

Lemma ordered_ids_ascending (m : gmap Z (option DSP)) :
  StronglySorted Z.le (ordered_ids m).
Proof. apply (StronglySorted_merge_sort Z.le). Qed.

Lemma reset_all_returns (rate : float) (size : Z) (m m' : gmap Z (option DSP)) u :
  reset_all rate size m = (Returns u, m') →
  ∀ h, reconfigured rate size (m !! h) (m' !! h).
Proof.
  unfold reset_all. intros Hrun h.
  destruct (ordered_ids_spec m) as [Hnodup Hin].
  destruct (reset_each_returns rate size _ Hnodup _ _ _ Hrun h) as [Hyes Hno].
  destruct (decide (h ∈ ordered_ids m)) as [Hh|Hh]; [by apply Hyes|].
  rewrite (Hno Hh).
  assert (m !! h = None) as ->; [|done].
  apply eq_None_not_Some. by rewrite <- Hin.
Qed.

(** C5: when [nam_setSampleRate] or [nam_setMaxBufferSize] returns, the new
    value is stored, the other value is kept, and every engine that was in
    the registry has been put through [Reset] with the pair now stored,
    [Reset] having returned, while empty slots stay empty; and when
    [nam_loadModel] returns true, the slot holds the engine the factory
    built, put through [Reset] with the stored pair and then [prewarm]. *)
Theorem config_applied_to_engines (s : state) :
  (∀ rate s', nam_setSampleRate rate s = (Returns (), s') →
     sampleRate s' = rate ∧ maxBufferSize s' = maxBufferSize s
     ∧ ∀ h, reconfigured (sampleRate s') (maxBufferSize s')
              (instances s !! h) (instances s' !! h))
  ∧ (∀ size s', nam_setMaxBufferSize size s = (Returns (), s') →
     sampleRate s' = sampleRate s ∧ maxBufferSize s' = size
     ∧ ∀ h, reconfigured (sampleRate s') (maxBufferSize s')
              (instances s !! h) (instances s' !! h))
  ∧ (∀ id jsonStr s', nam_loadModel id jsonStr s = (Returns true, s') →
     sampleRate s' = sampleRate s ∧ maxBufferSize s' = maxBufferSize s
     ∧ ∃ dsp dsp1 dsp2,
         get_dsp jsonStr = Returns (Some dsp)
         ∧ Reset dsp (sampleRate s') (maxBufferSize s') = (Returns (), dsp1)
         ∧ prewarm dsp1 = (Returns (), dsp2)
         ∧ instances s' !! id = Some (Some dsp2)).
Proof.
  split_and!.
  - intros rate s'. unfold nam_setSampleRate.
    destruct (reset_all rate (maxBufferSize s) (instances s)) as [r m] eqn:Hrun.
    intros [= -> <-]. simpl. split_and!; try done.
    by apply reset_all_returns with ().
  - intros size s'. unfold nam_setMaxBufferSize.
    destruct (reset_all (sampleRate s) size (instances s)) as [r m] eqn:Hrun.
    intros [= -> <-]. simpl. split_and!; try done.
    by apply reset_all_returns with ().
  - intros id jsonStr s' Hload.
    destruct (ensure_fast_tanh_frame s) as (Hm & _ & Hr & Hb).
    destruct (nam_loadModel_cases id jsonStr s)
      as [[Hl _]|[_ [Hl|[Hl|(dsp&dsp1&dsp2&[]&[]&Hget&HR&HP&Hl)]]]];
      rewrite Hl in Hload; try done.
    injection Hload as <-. simpl. rewrite Hr, Hb. split_and!; try done.
    exists dsp, dsp1, dsp2. by rewrite lookup_insert_eq.
Qed.

(** ** Runs *)

Lemma run_cons (o : op) (ops : list op) (s : state) :
  ((step o s).1 = Undefined
   ∧ run (o :: ops) s = ([Event s o Undefined], (step o s).2))
  ∨ ((step o s).1 ≠ Undefined
     ∧ run (o :: ops) s
       = (Event s o (step o s).1 :: (run ops (step o s).2).1,
          (run ops (step o s).2).2)).
Proof.
  simpl. destruct (step o s) as [r s']. simpl.
  destruct (run ops s') as [tr s'']. simpl.
  destruct r; [right|right|left]; done.
Qed.

Lemma step_create (s : state) :
  step CreateInstance s
  = (Returns (VInt (nextInstanceId s)), (nam_createInstance s).2).
Proof. done. Qed.

Lemma dom_insert_present (m : gmap Z (option DSP)) (id : Z) (slot : option DSP) :
  is_Some (m !! id) → dom (<[id := slot]> m) = dom m.
Proof. intros Hid. by apply dom_insert_lookup_L. Qed.

Lemma reset_each_dom (rate : float) (size : Z) (ids : list Z) :
  ∀ m, dom (reset_each rate size ids m).2 = dom m.
Proof.
  induction ids as [|id ids IH]; intros m; [done|]. simpl.
  destruct (m !! id) as [[dsp|]|] eqn:Hid; try apply IH.
  destruct (Reset dsp rate size) as [[u| |] dsp']; simpl;
    rewrite ?IH; by apply dom_insert_present.
Qed.

Lemma nam_loadModel_keeps (id : Z) (jsonStr : string) (s : state) :
  keeps_shape s (nam_loadModel id jsonStr s).2.
Proof.
  destruct (ensure_fast_tanh_frame s) as (Hm & Hn & _ & _).
  destruct (nam_loadModel_cases id jsonStr s)
    as [[Hl _]|[Hid [Hl|[Hl|(?&?&?&?&?&_&_&_&Hl)]]]];
    rewrite Hl; split; simpl; rewrite ?Hm, ?Hn; try done.
  by apply dom_insert_present.
Qed.

Lemma nam_unloadModel_keeps (id : Z) (s : state) :
  keeps_shape s (nam_unloadModel id s) ∧ keeps_activation s (nam_unloadModel id s).
Proof.
  unfold nam_unloadModel.
  destruct (instances s !! id) as [slot|] eqn:Hid; [|done].
  repeat split. simpl. by apply dom_insert_present.
Qed.

Lemma nam_process_keeps (id : Z) (input output : list float) (n : Z) (s : state) :
  keeps_shape s (nam_process id input output n s).2
  ∧ keeps_activation s (nam_process id input output n s).2.
Proof.
  unfold nam_process.
  destruct (instances s !! id) as [[dsp|]|] eqn:Hid.
  - destruct (process dsp input output n) as [r dsp'].
    repeat split. simpl. by apply dom_insert_present.
  - by destruct (memcpy output input (bypass_bytes n)).
  - by destruct (memcpy output input (bypass_bytes n)).
Qed.

Lemma nam_reset_keeps (id : Z) (s : state) :
  keeps_shape s (nam_reset id s).2 ∧ keeps_activation s (nam_reset id s).2.
Proof.
  unfold nam_reset.
  destruct (instances s !! id) as [[dsp|]|] eqn:Hid; [|done..].
  destruct (Reset dsp (sampleRate s) (maxBufferSize s)) as [r dsp'].
  repeat split. simpl. by apply dom_insert_present.
Qed.

Lemma nam_setSampleRate_keeps (rate : float) (s : state) :
  keeps_shape s (nam_setSampleRate rate s).2
  ∧ keeps_activation s (nam_setSampleRate rate s).2.
Proof.
  unfold nam_setSampleRate.
  pose proof (reset_each_dom rate (maxBufferSize s)
                (ordered_ids (instances s)) (instances s)) as Hdom.
  unfold reset_all.
  by destruct (reset_each rate (maxBufferSize s) _ (instances s)) as [r m].
Qed.

Lemma nam_setMaxBufferSize_keeps (size : Z) (s : state) :
  keeps_shape s (nam_setMaxBufferSize size s).2
  ∧ keeps_activation s (nam_setMaxBufferSize size s).2.
Proof.
  unfold nam_setMaxBufferSize.
  pose proof (reset_each_dom (sampleRate s) size
                (ordered_ids (instances s)) (instances s)) as Hdom.
  unfold reset_all.
  by destruct (reset_each (sampleRate s) size _ (instances s)) as [r m].
Qed.

Lemma nam_destroyInstance_keeps (id : Z) (s : state) :
  nextInstanceId (nam_destroyInstance id s) = nextInstanceId s
  ∧ keeps_activation s (nam_destroyInstance id s).
Proof. unfold nam_destroyInstance. by destruct (instances s !! id). Qed.

(** The second component of [step], call by call. *)
Lemma step_state (o : op) (s : state) :
  (step o s).2
  = match o with
    | CreateInstance => (nam_createInstance s).2
    | DestroyInstance id => nam_destroyInstance id s
    | LoadModel id jsonStr => (nam_loadModel id jsonStr s).2
    | UnloadModel id => nam_unloadModel id s
    | Process id input output n => (nam_process id input output n s).2
    | SetSampleRate rate => (nam_setSampleRate rate s).2
    | SetMaxBufferSize size => (nam_setMaxBufferSize size s).2
    | ResetInstance id => (nam_reset id s).2
    | _ => s
    end.
Proof.
  destruct o; simpl; try done.
  - by destruct (nam_loadModel id jsonStr s).
  - by destruct (nam_process id input output numFrames s).
  - by destruct (nam_setSampleRate rate s).
  - by destruct (nam_setMaxBufferSize size s).
  - by destruct (nam_reset id s).
Qed.

Lemma step_nextInstanceId (o : op) (s : state) :
  nextInstanceId (step o s).2
  = if is_create o then wrap_int (nextInstanceId s + 1) else nextInstanceId s.
Proof.
  rewrite step_state. destruct o; simpl; try done.
  - apply nam_destroyInstance_keeps.
  - apply nam_loadModel_keeps.
  - apply nam_unloadModel_keeps.
  - apply nam_process_keeps.
  - apply nam_setSampleRate_keeps.
  - apply nam_setMaxBufferSize_keeps.
  - apply nam_reset_keeps.
Qed.

Lemma issued_not_create (o : op) (s : state) (r : outcome value) :
  is_create o = false → issued_handle (Event s o r) = None.
Proof. by destruct o. Qed.

Lemma count_creates_cons (o : op) (ops : list op) :
  count_creates (o :: ops)
  = ((if is_create o then 1 else 0) + count_creates ops)%nat.
Proof. unfold count_creates. simpl. by destruct (is_create o). Qed.

(** From a state whose counter is [c], with room for all the
    [nam_createInstance] calls of [ops] below [INT_MAX], the handles issued
    are increasing and start no lower than [c]. *)
Lemma issued_increasing (ops : list op) :
  ∀ s, 0 ≤ nextInstanceId s →
       nextInstanceId s + Z.of_nat (count_creates ops) ≤ INT_MAX →
       StronglySorted Z.lt (issued (run ops s).1)
       ∧ Forall (λ h, nextInstanceId s ≤ h) (issued (run ops s).1).
Proof.
  induction ops as [|o ops IH]; intros s Hpos Hroom.
  - simpl. split; constructor.
  - rewrite count_creates_cons in Hroom.
    pose proof (step_nextInstanceId o s) as Hnext.
    destruct (run_cons o ops s) as [[Hu ->]|[_ ->]]; simpl.
    + unfold issued. simpl.
      destruct o; split; constructor.
    + destruct (is_create o) eqn:Hc.
      * destruct o; try done. clear Hnext. simpl in Hroom.
        assert (nextInstanceId (nam_createInstance s).2 = nextInstanceId s + 1)
          as Hn by (apply wrap_int_id; unfold INT_MIN; lia).
        destruct (IH (nam_createInstance s).2) as [Hsorted Hlow];
          [rewrite Hn; lia..|].
        rewrite Hn in Hlow.
        unfold issued in *. simpl. split.
        -- constructor; [done|].
           eapply Forall_impl; [exact Hlow|]. simpl. lia.
        -- constructor; [lia|].
           eapply Forall_impl; [exact Hlow|]. simpl. lia.
      * destruct (IH (step o s).2) as [Hsorted Hlow]; [lia..|].
        rewrite Hnext in Hlow.
        unfold issued in *. simpl.
        by rewrite issued_not_create.
Qed.

Lemma strictly_increasing_NoDup (l : list Z) : StronglySorted Z.lt l → NoDup l.
Proof.
  induction 1 as [|x l _ IH Hall]; constructor; [|done].
  intros Hin. rewrite Forall_forall in Hall. specialize (Hall x Hin). lia.
Qed.

(** C3: along any sequence of calls made from the start of the process, in
    which [nam_createInstance] is called at most [INT_MAX] times (so that
    [nextInstanceId++] stays in the range of [int]), the handles returned by
    the successive [nam_createInstance] calls are strictly increasing, none
    is negative and none is returned twice, whatever was destroyed in
    between. *)
Theorem handles_strictly_increasing (ops : list op) :
  Z.of_nat (count_creates ops) ≤ INT_MAX →
  StronglySorted Z.lt (issued (run ops init_state).1)
  ∧ Forall (λ h, 0 ≤ h) (issued (run ops init_state).1)
  ∧ NoDup (issued (run ops init_state).1).
Proof.
  intros Hroom.
  destruct (issued_increasing ops init_state) as [Hsorted Hlow];
    [done|simpl; lia|].
  split_and!; [done|done|].
  by apply strictly_increasing_NoDup.
Qed.

(** ** Counting instances *)

Lemma difference_absent (X : gset Z) (id : Z) : id ∉ X → X ∖ {[id]} = X.
Proof.
  intros Hid. apply set_eq. intros k.
  rewrite elem_of_difference, elem_of_singleton.
  split; [by intros [? _]|]. intros Hk. split; [done|]. by intros ->.
Qed.

Lemma step_dom (o : op) (s : state) :
  dom (instances (step o s).2)
  = match o with
    | CreateInstance => {[nextInstanceId s]} ∪ dom (instances s)
    | DestroyInstance id => dom (instances s) ∖ {[id]}
    | _ => dom (instances s)
    end.
Proof.
  rewrite step_state. destruct o; simpl; try done.
  - apply dom_insert_L.
  - unfold nam_destroyInstance.
    destruct (instances s !! id) eqn:Hid; simpl; [apply dom_delete_L|].
    apply not_elem_of_dom in Hid. by rewrite difference_absent.
  - apply nam_loadModel_keeps.
  - apply nam_unloadModel_keeps.
  - apply nam_process_keeps.
  - apply nam_setSampleRate_keeps.
  - apply nam_setMaxBufferSize_keeps.
  - apply nam_reset_keeps.
Qed.

Lemma step_below_counter (o : op) (s : state) :
  below_counter s →
  nextInstanceId s + (if is_create o then 1 else 0) ≤ INT_MAX →
  below_counter (step o s).2.
Proof.
  intros [Hpos Hbelow] Hroom. unfold below_counter.
  rewrite step_dom, step_nextInstanceId.
  destruct o; simpl in *; try done.
  - rewrite wrap_int_id by (unfold INT_MIN; lia).
    split; [lia|]. intros h [->%elem_of_singleton|Hh]%elem_of_union; [lia|].
    specialize (Hbelow h Hh). lia.
  - split; [done|]. intros h [Hh _]%elem_of_difference. by apply Hbelow.
Qed.

Lemma step_size (o : op) (s : state) :
  below_counter s →
  (size (instances (step o s).2) + (if matched_destroy s o then 1 else 0)
   = size (instances s) + (if is_create o then 1 else 0))%nat.
Proof.
  intros [_ Hbelow].
  rewrite <- !(size_dom (D := gset Z)), step_dom.
  destruct o; simpl; try lia.
  - rewrite size_union, size_singleton; [lia|].
    apply disjoint_singleton_l. intros Hin. specialize (Hbelow _ Hin). lia.
  - case_bool_decide as Hid.
    + apply elem_of_dom in Hid.
      rewrite size_difference, size_singleton by set_solver.
      assert (size (dom (instances s)) ≠ 0%nat); [|lia].
      apply size_non_empty_iff. set_solver.
    + rewrite <- elem_of_dom in Hid. rewrite difference_absent by done. lia.
Qed.

Lemma creates_made_cons (e : event) (tr : list event) :
  creates_made (e :: tr)
  = ((if is_create (ev_op e) then 1 else 0) + creates_made tr)%nat.
Proof. unfold creates_made. simpl. by destruct (is_create (ev_op e)). Qed.

Lemma destroys_matched_cons (e : event) (tr : list event) :
  destroys_matched (e :: tr)
  = ((if matched_destroy (ev_pre e) (ev_op e) then 1 else 0)
     + destroys_matched tr)%nat.
Proof.
  unfold destroys_matched. simpl.
  by destruct (matched_destroy (ev_pre e) (ev_op e)).
Qed.

(** The size of the registry after a run, against the calls executed. *)
Lemma run_balance (ops : list op) :
  ∀ s, below_counter s →
       nextInstanceId s + Z.of_nat (count_creates ops) ≤ INT_MAX →
       (size (instances (run ops s).2) + destroys_matched (run ops s).1
        = size (instances s) + creates_made (run ops s).1)%nat
       ∧ (creates_made (run ops s).1 ≤ count_creates ops)%nat.
Proof.
  induction ops as [|o ops IH]; intros s Hinv Hroom.
  - simpl. unfold destroys_matched, creates_made. simpl. lia.
  - rewrite count_creates_cons in *.
    pose proof (step_size o s Hinv) as Hstep.
    assert (below_counter (step o s).2) as Hinv'.
    { apply step_below_counter; [done|]. destruct (is_create o); lia. }
    pose proof (step_nextInstanceId o s) as Hnext.
    destruct (run_cons o ops s) as [[_ ->]|[_ ->]]; simpl;
      rewrite creates_made_cons, destroys_matched_cons; simpl.
    + unfold destroys_matched, creates_made. simpl.
      destruct (is_create o); lia.
    + destruct (IH (step o s).2 Hinv') as [Hbal Hle].
      { rewrite Hnext. destruct (is_create o); [|lia].
        rewrite wrap_int_id; [lia|]. destruct Hinv. unfold INT_MIN. lia. }
      destruct (is_create o), (matched_destroy s o); lia.
Qed.

(** C6: along any sequence of calls made from the start of the process, in
    which [nam_createInstance] is called at most [INT_MAX] times,
    [nam_getInstanceCount] in the state reached equals the number of
    [nam_createInstance] calls executed minus the number of
    [nam_destroyInstance] calls whose handle was in the registry when they
    were made; and [nam_unloadModel] never changes [nam_getInstanceCount]. *)
Theorem instance_count_balance (ops : list op) :
  Z.of_nat (count_creates ops) ≤ INT_MAX →
  nam_getInstanceCount (run ops init_state).2
  = Z.of_nat (creates_made (run ops init_state).1)
    - Z.of_nat (destroys_matched (run ops init_state).1)
  ∧ ∀ id s, nam_getInstanceCount (nam_unloadModel id s) = nam_getInstanceCount s.
Proof.
  intros Hroom. split.
  - destruct (run_balance ops init_state) as [Hbal Hle].
    { split; [done|]. simpl. intros h Hh. by rewrite dom_empty_L in Hh. }
    { simpl. lia. }
    simpl in Hbal. rewrite map_size_empty in Hbal.
    unfold nam_getInstanceCount.
    rewrite wrap_int_id by (unfold INT_MIN; lia). lia.
  - intros id s. unfold nam_getInstanceCount.
    destruct (nam_unloadModel_keeps id s) as [[Hdom _] _].
    by rewrite <- !(size_dom (D := gset Z)), Hdom.
Qed.

(** ** The activation flag *)

Lemma run_invariant (P : state → Prop) :
  (∀ o s, P s → P (step o s).2) →
  ∀ ops s, P s → P (run ops s).2.
Proof.
  intros Hstep. induction ops as [|o ops IH]; intros s Hs; [done|].
  destruct (run_cons o ops s) as [[_ ->]|[_ ->]]; simpl; auto.
Qed.

(** [nam_loadModel] reaches the switch exactly when the handle is found. *)
Lemma nam_loadModel_activation (id : Z) (jsonStr : string) (s : state) :
  let s' := (nam_loadModel id jsonStr s).2 in
  fastTanhEnabled s'
  = (fastTanhEnabled s || bool_decide (is_Some (instances s !! id)))
  ∧ enable_fast_tanh_calls s'
    = (enable_fast_tanh_calls s
       + (if fastTanhEnabled s then 0
          else if bool_decide (is_Some (instances s !! id)) then 1 else 0))%nat.
Proof.
  assert (fastTanhEnabled (ensure_fast_tanh s) = true
          ∧ enable_fast_tanh_calls (ensure_fast_tanh s)
            = (enable_fast_tanh_calls s
               + (if fastTanhEnabled s then 0 else 1))%nat) as [Hflag Hcalls].
  { unfold ensure_fast_tanh.
    destruct (fastTanhEnabled s) eqn:Hf; simpl; split; (done || lia). }
  simpl.
  destruct (nam_loadModel_cases id jsonStr s)
    as [[Hl Hid]|[Hid [Hl|[Hl|(?&?&?&?&?&_&_&_&Hl)]]]];
    rewrite Hl; simpl.
  - rewrite Hid, bool_decide_false by (by intros [? ?]).
    rewrite orb_false_r. destruct (fastTanhEnabled s); lia.
  - rewrite bool_decide_true, orb_true_r by done. by rewrite Hflag, Hcalls.
  - rewrite bool_decide_true, orb_true_r by done. by rewrite Hflag, Hcalls.
  - rewrite bool_decide_true, orb_true_r by done. by rewrite Hflag, Hcalls.
Qed.

(** What one call does to the flag and to the number of calls made to the
    collaborator's switch. *)
Lemma step_activation (o : op) (s : state) :
  match o with
  | LoadModel id jsonStr =>
      fastTanhEnabled (step o s).2
      = (fastTanhEnabled s || bool_decide (is_Some (instances s !! id)))
      ∧ enable_fast_tanh_calls (step o s).2
        = (enable_fast_tanh_calls s
           + (if fastTanhEnabled s then 0
              else if bool_decide (is_Some (instances s !! id)) then 1
                   else 0))%nat
  | _ => keeps_activation s (step o s).2
  end.
Proof.
  rewrite step_state. destruct o; simpl; try done.
  - apply nam_destroyInstance_keeps.
  - apply nam_loadModel_activation.
  - apply nam_unloadModel_keeps.
  - apply nam_process_keeps.
  - apply nam_setSampleRate_keeps.
  - apply nam_setMaxBufferSize_keeps.
  - apply nam_reset_keeps.
Qed.

Lemma step_switched_once (o : op) (s : state) :
  switched_once s → switched_once (step o s).2.
Proof.
  unfold switched_once. intros Hs.
  pose proof (step_activation o s) as Hact.
  destruct o; try (destruct Hact as [-> ->]; exact Hs).
  destruct Hact as [-> ->]. rewrite Hs.
  by destruct (fastTanhEnabled s), (bool_decide (is_Some (instances s !! id))).
Qed.

Lemma step_flag (o : op) (s : state) (r : outcome value) :
  fastTanhEnabled (step o s).2 = true
  ↔ fastTanhEnabled s = true ∨ load_on_live (Event s o r).
Proof.
  pose proof (step_activation o s) as Hact. unfold load_on_live. simpl.
  destruct o;
    try (destruct Hact as [-> _]; split; [by left|];
         by intros [?|(?&?&?&?)]).
  destruct Hact as [-> _].
  rewrite orb_true_iff, bool_decide_eq_true. split.
  - intros [?|?]; [by left|right; eauto].
  - intros [?|(?&?&[= -> _]&?)]; [by left|by right].
Qed.

Lemma run_flag (ops : list op) :
  ∀ s, fastTanhEnabled (run ops s).2 = true
       ↔ fastTanhEnabled s = true ∨ Exists load_on_live (run ops s).1.
Proof.
  induction ops as [|o ops IH]; intros s.
  - simpl. rewrite Exists_nil. tauto.
  - destruct (run_cons o ops s) as [[_ ->]|[_ ->]]; simpl.
    + rewrite Exists_cons, Exists_nil. rewrite (step_flag o s Undefined). tauto.
    + rewrite Exists_cons, IH. rewrite (step_flag o s (step o s).1). tauto.
Qed.

(** C4, as the code has it: the flag is false at the start; a call made
    while it is true leaves it true; a call made while it is false raises it
    exactly when the call is [nam_loadModel] on a handle of the registry,
    whether that call then returns true or false, so [nam_loadModel] on an
    unknown handle never raises it and a [nam_loadModel] that returns true
    always leaves it true; so after any sequence of calls from the start the
    flag is true exactly when one of the calls executed was a
    [nam_loadModel] on a handle then in the registry, and the collaborator's
    switch has been called once if the flag is true and not at all if it is
    false. *)
Theorem fast_tanh_flag_transitions :
  fastTanhEnabled init_state = false
  ∧ (∀ o s, fastTanhEnabled s = true → fastTanhEnabled (step o s).2 = true)
  ∧ (∀ o s, fastTanhEnabled s = false →
       (fastTanhEnabled (step o s).2 = true
        ↔ ∃ id jsonStr, o = LoadModel id jsonStr ∧ is_Some (instances s !! id)))
  ∧ (∀ id jsonStr s,
       (nam_loadModel id jsonStr s).1 = Returns true →
       fastTanhEnabled (nam_loadModel id jsonStr s).2 = true)
  ∧ (∀ ops, fastTanhEnabled (run ops init_state).2 = true
            ↔ Exists load_on_live (run ops init_state).1)
  ∧ (∀ ops, switched_once (run ops init_state).2).
Proof.
  split_and!.
  - done.
  - intros o s Hs. pose proof (step_activation o s) as Hact.
    destruct o; try (destruct Hact as [-> _]; exact Hs).
    destruct Hact as [-> _]. by rewrite Hs.
  - intros o s Hs. pose proof (step_activation o s) as Hact.
    destruct o;
      try (destruct Hact as [-> _]; rewrite Hs; split;
           [done|by intros (?&?&?&?)]).
    destruct Hact as [-> _]. rewrite Hs. simpl.
    rewrite bool_decide_eq_true. split; [by eauto|].
    by intros (?&?&[= -> _]&?).
  - intros id jsonStr s Hok.
    destruct (nam_loadModel_activation id jsonStr s) as [-> _].
    destruct (nam_loadModel_cases id jsonStr s)
      as [[Hl Hid]|[Hid _]]; [by rewrite Hl in Hok|].
    by rewrite bool_decide_true, orb_true_r.
  - intros ops. rewrite run_flag. simpl. split; [by intros [?|?]|by right].
  - intros ops. apply run_invariant; [apply step_switched_once|done].
Qed.

End NamProperties.

(** * Further properties of the module *)

Section NamFurther.
Context {core : NamCore}.

(** ** Projections of a step *)

Lemma step_load_outcome (id : Z) (jsonStr : string) (s : state) :
  (step (LoadModel id jsonStr) s).1
  = map_outcome VBool (nam_loadModel id jsonStr s).1.
Proof. simpl. by destruct (nam_loadModel id jsonStr s). Qed.

Lemma nam_hasModel_loaded (id : Z) (s : state) :
  nam_hasModel id s = loaded (instances s !! id).
Proof. done. Qed.

Lemma loaded_insert_engine (m : gmap Z (option DSP)) (id h : Z) (dsp dsp' : DSP) :
  m !! id = Some (Some dsp) →
  loaded (<[id := Some dsp']> m !! h) = loaded (m !! h).
Proof.
  intros Hid. destruct (decide (id = h)) as [<-|Hne].
  - by rewrite lookup_insert_eq, Hid.
  - by rewrite lookup_insert_ne.
Qed.

Lemma reset_each_loaded (rate : float) (size : Z) (ids : list Z) (h : Z) :
  ∀ m, loaded ((reset_each rate size ids m).2 !! h) = loaded (m !! h).
Proof.
  induction ids as [|id ids IH]; intros m; [done|]. simpl.
  destruct (m !! id) as [[dsp|]|] eqn:Hid; try apply IH.
  destruct (Reset dsp rate size) as [[u| |] dsp']; simpl;
    rewrite ?IH; by eapply loaded_insert_engine.
Qed.

(** ** Loading *)

Lemma ensure_fast_tanh_set_instances (m : gmap Z (option DSP)) (s : state) :
  ensure_fast_tanh (set_instances m s) = set_instances m (ensure_fast_tanh s).
Proof. unfold ensure_fast_tanh. simpl. by destruct (fastTanhEnabled s). Qed.

(** X1: [nam_loadModel] never leaves by an exception; it returns true
    exactly when the handle is in the registry, the factory returns an
    engine, and [Reset] with the stored pair and [prewarm] both return on
    it; then [nam_hasModel] answers true; and on a handle that is not in the
    registry it returns false and changes nothing at all. *)
Theorem loadModel_outcomes (id : Z) (jsonStr : string) (s : state) :
  (nam_loadModel id jsonStr s).1 ≠ Throws
  ∧ ((nam_loadModel id jsonStr s).1 = Returns true
     ↔ is_Some (instances s !! id)
       ∧ ∃ dsp dsp1 dsp2,
           get_dsp jsonStr = Returns (Some dsp)
           ∧ Reset dsp (sampleRate s) (maxBufferSize s) = (Returns (), dsp1)
           ∧ prewarm dsp1 = (Returns (), dsp2))
  ∧ ((nam_loadModel id jsonStr s).1 = Returns true →
     nam_hasModel id (nam_loadModel id jsonStr s).2 = true)
  ∧ (instances s !! id = None → nam_loadModel id jsonStr s = (Returns false, s)).
Proof.
  pose proof (nam_loadModel_cases id jsonStr s) as Hcases.
  split_and!.
  - by destruct Hcases as [[-> _]|[_ [->|[->|(?&?&?&?&?&_&_&_&->)]]]].
  - split.
    + intros Hok.
      destruct Hcases as [[Hl _]|[Hid [Hl|[Hl|(d&d1&d2&[]&[]&?&?&?&Hl)]]]];
        rewrite Hl in Hok; try done.
      split; [done|]. by exists d, d1, d2.
    + intros [[slot Hid] (d & d1 & d2 & Hget & HR & HP)].
      destruct (ensure_fast_tanh_frame s) as (_ & _ & Hr & Hb).
      unfold nam_loadModel. by rewrite Hid, Hget, Hr, Hb, HR, HP.
  - intros Hok. unfold nam_hasModel.
    destruct Hcases as [[Hl _]|[Hid [Hl|[Hl|(d&d1&d2&?&?&_&_&_&Hl)]]]];
      rewrite Hl in Hok |- *; try done.
    simpl. by rewrite lookup_insert_eq.
  - intros Hid. unfold nam_loadModel. by rewrite Hid.
Qed.

(** What [nam_loadModel] does depends on the slot of the handle only
    through its presence. *)
Lemma nam_loadModel_slot (id : Z) (jsonStr : string) (s : state)
    (slot : option DSP) :
  is_Some (instances s !! id) →
  (nam_loadModel id jsonStr (set_instances (<[id := slot]> (instances s)) s)).1
  = (nam_loadModel id jsonStr s).1
  ∧ ((nam_loadModel id jsonStr s).1 = Returns true →
     (nam_loadModel id jsonStr (set_instances (<[id := slot]> (instances s)) s)).2
     = (nam_loadModel id jsonStr s).2).
Proof.
  intros [old Hid]. unfold nam_loadModel.
  rewrite ensure_fast_tanh_set_instances. simpl.
  rewrite lookup_insert_eq, Hid.
  destruct (ensure_fast_tanh_frame s) as (Hm & _ & _ & _).
  destruct (get_dsp jsonStr) as [[dsp|]| |]; try done.
  destruct (Reset dsp _ _) as [[u1| |] dsp1]; try done.
  destruct (prewarm dsp1) as [[u2| |] dsp2]; try done.
  split; [done|]. intros _. simpl.
  unfold set_instances. simpl. by rewrite insert_insert_eq, Hm.
Qed.

Lemma nam_unloadModel_live (id : Z) (s : state) :
  is_Some (instances s !! id) →
  nam_unloadModel id s = set_instances (<[id := None]> (instances s)) s.
Proof. intros [slot Hid]. unfold nam_unloadModel. by rewrite Hid. Qed.

Lemma nam_unloadModel_unknown (id : Z) (s : state) :
  instances s !! id = None → nam_unloadModel id s = s.
Proof. intros Hid. unfold nam_unloadModel. by rewrite Hid. Qed.

(** X2: unloading twice is unloading once; destroying an instance gives the
    same state whether or not its model was unloaded first; and
    [nam_loadModel] after [nam_unloadModel] ends as it would have without
    the unload, in the same state when it returns true. *)
Theorem unloadModel_composes (id : Z) (s : state) :
  nam_unloadModel id (nam_unloadModel id s) = nam_unloadModel id s
  ∧ nam_destroyInstance id (nam_unloadModel id s) = nam_destroyInstance id s
  ∧ ∀ jsonStr,
      (nam_loadModel id jsonStr (nam_unloadModel id s)).1
      = (nam_loadModel id jsonStr s).1
      ∧ ((nam_loadModel id jsonStr s).1 = Returns true →
         (nam_loadModel id jsonStr (nam_unloadModel id s)).2
         = (nam_loadModel id jsonStr s).2).
Proof.
  destruct (instances s !! id) as [slot|] eqn:Hid.
  - rewrite (nam_unloadModel_live id s) by eauto. split_and!.
    + rewrite nam_unloadModel_live by (simpl; rewrite lookup_insert_eq; eauto).
      unfold set_instances. simpl. by rewrite insert_insert_eq.
    + unfold nam_destroyInstance. simpl.
      rewrite lookup_insert_eq, Hid. unfold set_instances. simpl.
      by rewrite delete_insert_eq.
    + intros jsonStr. apply nam_loadModel_slot. eauto.
  - rewrite !(nam_unloadModel_unknown id s) by done.
    split_and!; [done..|]. by intros jsonStr.
Qed.

(** ** Creating and destroying *)

(** X3: destroying the handle [nam_createInstance] has just returned leaves
    the registry without that handle, which is the registry as it was when
    the handle was not in use before; the counter stays advanced and the
    other globals are as they were. *)
Theorem create_then_destroy (s : state) :
  instances (nam_destroyInstance (nam_createInstance s).1 (nam_createInstance s).2)
  = delete (nextInstanceId s) (instances s)
  ∧ (instances s !! nextInstanceId s = None →
     instances
       (nam_destroyInstance (nam_createInstance s).1 (nam_createInstance s).2)
     = instances s
     ∧ nam_getInstanceCount
         (nam_destroyInstance (nam_createInstance s).1 (nam_createInstance s).2)
       = nam_getInstanceCount s)
  ∧ nextInstanceId
      (nam_destroyInstance (nam_createInstance s).1 (nam_createInstance s).2)
    = wrap_int (nextInstanceId s + 1)
  ∧ sampleRate
      (nam_destroyInstance (nam_createInstance s).1 (nam_createInstance s).2)
    = sampleRate s
  ∧ maxBufferSize
      (nam_destroyInstance (nam_createInstance s).1 (nam_createInstance s).2)
    = maxBufferSize s
  ∧ fastTanhEnabled
      (nam_destroyInstance (nam_createInstance s).1 (nam_createInstance s).2)
    = fastTanhEnabled s.
Proof.
  assert (instances
            (nam_destroyInstance (nam_createInstance s).1 (nam_createInstance s).2)
          = delete (nextInstanceId s) (instances s)) as Hreg.
  { unfold nam_destroyInstance. simpl. rewrite lookup_insert_eq. simpl.
    apply delete_insert_eq. }
  split_and!.
  - done.
  - intros Hfresh. unfold nam_getInstanceCount.
    by rewrite Hreg, delete_id.
  - unfold nam_destroyInstance. simpl. by rewrite lookup_insert_eq.
  - unfold nam_destroyInstance. simpl. by rewrite lookup_insert_eq.
  - unfold nam_destroyInstance. simpl. by rewrite lookup_insert_eq.
  - unfold nam_destroyInstance. simpl. by rewrite lookup_insert_eq.
Qed.

(** ** Loudness *)

(** X13: loudness metadata is only ever reported for a handle that holds a
    model: when [nam_hasModelLoudness] is true so is [nam_hasModel]; a
    loudness other than [0.0f], or an exception of the query, is possible
    only when [nam_hasModelLoudness] is true. *)
Theorem loudness_needs_model (id : Z) (s : state) :
  (nam_hasModelLoudness id s = true → nam_hasModel id s = true)
  ∧ (∀ v, nam_getModelLoudness id s = Returns v → v ≠ float_0 →
       nam_hasModelLoudness id s = true)
  ∧ (returned (nam_getModelLoudness id s) = false →
     nam_hasModelLoudness id s = true).
Proof.
  unfold nam_hasModelLoudness, nam_hasModel, nam_getModelLoudness.
  destruct (instances s !! id) as [[dsp|]|]; simpl.
  - destruct (HasLoudness dsp); split_and!; try done.
    intros v [= <-] Hv. done.
  - split_and!; try done. intros v [= <-] Hv. done.
  - split_and!; try done. intros v [= <-] Hv. done.
Qed.

(** ** Histories of runs *)

Lemma step_create_outcome (s : state) :
  (step CreateInstance s).1 = Returns (VInt (nextInstanceId s)).
Proof. done. Qed.

Lemma issued_cons (e : event) (tr : list event) :
  issued (e :: tr)
  = match issued_handle e with
    | Some h => h :: issued tr
    | None => issued tr
    end.
Proof. done. Qed.

(** The counter after a run, and the handles issued along it. *)
Lemma run_counter (ops : list op) :
  ∀ s, 0 ≤ nextInstanceId s →
       nextInstanceId s + Z.of_nat (count_creates ops) ≤ INT_MAX →
       nextInstanceId (run ops s).2
       = nextInstanceId s + Z.of_nat (creates_made (run ops s).1)
       ∧ issued (run ops s).1
         = seqZ (nextInstanceId s) (Z.of_nat (creates_made (run ops s).1))
       ∧ (creates_made (run ops s).1 ≤ count_creates ops)%nat.
Proof.
  induction ops as [|o ops IH]; intros s Hpos Hroom.
  - simpl. unfold creates_made. simpl. split_and!; [lia|done|lia].
  - rewrite count_creates_cons in Hroom |- *.
    pose proof (step_nextInstanceId o s) as Hnext.
    destruct (run_cons o ops s) as [[Hu ->]|[_ ->]]; cbn [fst snd];
      rewrite creates_made_cons; cbn [ev_op].
    + destruct (is_create o) eqn:Hc; [by destruct o|].
      rewrite Hnext, issued_cons, issued_not_create by done.
      unfold creates_made, issued. simpl. split_and!; [lia|done|lia].
    + destruct (is_create o) eqn:Hc.
      * destruct o; try done.
        rewrite wrap_int_id in Hnext by (unfold INT_MIN; lia).
        destruct (IH (step CreateInstance s).2) as (Hn & Hi & Hle);
          [lia..|].
        rewrite Hn, Hnext, issued_cons, Hi, Hnext, step_create_outcome.
        cbn [issued_handle ev_op ev_out].
        split_and!; [lia| |lia].
        rewrite (seqZ_cons (nextInstanceId s)) by lia.
        do 2 f_equal; lia.
      * destruct (IH (step o s).2) as (Hn & Hi & Hle); [lia..|].
        rewrite Hn, Hnext, issued_cons, issued_not_create, Hi, Hnext by done.
        split_and!; [lia|done|lia].
Qed.

(** X4: along any sequence of calls made from the start of the process with
    at most [INT_MAX] calls of [nam_createInstance], the handles returned
    are [0, 1, 2, ...] in this order, one per call executed, and the counter
    equals their number. *)
Theorem handles_count_from_zero (ops : list op) :
  Z.of_nat (count_creates ops) ≤ INT_MAX →
  issued (run ops init_state).1
  = seqZ 0 (Z.of_nat (creates_made (run ops init_state).1))
  ∧ nextInstanceId (run ops init_state).2
    = Z.of_nat (creates_made (run ops init_state).1).
Proof.
  intros Hroom.
  destruct (run_counter ops init_state) as (Hn & Hi & _); [done|simpl; lia|].
  split; [exact Hi|]. rewrite Hn. simpl. lia.
Qed.

Lemma run_below_counter (ops : list op) :
  ∀ s, below_counter s →
       nextInstanceId s + Z.of_nat (count_creates ops) ≤ INT_MAX →
       below_counter (run ops s).2.
Proof.
  induction ops as [|o ops IH]; intros s Hinv Hroom; [done|].
  rewrite count_creates_cons in Hroom.
  assert (below_counter (step o s).2) as Hinv'.
  { apply step_below_counter; [done|]. destruct (is_create o); lia. }
  pose proof (step_nextInstanceId o s) as Hnext.
  destruct (run_cons o ops s) as [[_ ->]|[_ ->]]; cbn [fst snd]; [done|].
  apply IH; [done|]. rewrite Hnext.
  destruct (is_create o); [|lia].
  rewrite wrap_int_id; [lia|]. destruct Hinv. unfold INT_MIN. lia.
Qed.

(** A handle below the counter that is not in the registry stays out. *)
Lemma run_absent (ops : list op) (h : Z) :
  ∀ s, 0 ≤ nextInstanceId s →
       nextInstanceId s + Z.of_nat (count_creates ops) ≤ INT_MAX →
       h < nextInstanceId s →
       instances s !! h = None →
       instances (run ops s).2 !! h = None.
Proof.
  induction ops as [|o ops IH]; intros s Hpos Hroom Hlow Hout; [done|].
  rewrite count_creates_cons in Hroom.
  pose proof (step_nextInstanceId o s) as Hnext.
  assert (nextInstanceId (step o s).2
          = nextInstanceId s + (if is_create o then 1 else 0)) as Hnext'.
  { rewrite Hnext. destruct (is_create o); [|lia].
    apply wrap_int_id. unfold INT_MIN. lia. }
  assert (instances (step o s).2 !! h = None) as Hout'.
  { apply not_elem_of_dom. rewrite step_dom.
    apply not_elem_of_dom in Hout.
    destruct o; try done.
    - rewrite elem_of_union, elem_of_singleton. intros [->|?]; [lia|done].
    - rewrite elem_of_difference. by intros [? _]. }
  destruct (run_cons o ops s) as [[_ ->]|[_ ->]]; cbn [fst snd]; [done|].
  apply IH; [..|done]; rewrite Hnext'; destruct (is_create o); lia.
Qed.

(** X5: a handle that was issued and is then destroyed is never in the
    registry again, whatever calls follow (with at most [INT_MAX] calls of
    [nam_createInstance] in all): later calls find it unknown and it holds
    no model. *)
Theorem destroyed_handle_stays_unknown (before after : list op) (h : Z) :
  Z.of_nat (count_creates before) + Z.of_nat (count_creates after) ≤ INT_MAX →
  h ∈ issued (run before init_state).1 →
  instances
    (run after (nam_destroyInstance h (run before init_state).2)).2 !! h = None
  ∧ nam_hasModel h
      (run after (nam_destroyInstance h (run before init_state).2)).2 = false.
Proof.
  intros Hroom Hissued.
  destruct (run_counter before init_state) as (Hn & Hi & Hle);
    [done|simpl; lia|].
  rewrite Hi, elem_of_seqZ in Hissued. simpl in Hn, Hissued.
  destruct (nam_destroyInstance_keeps h (run before init_state).2) as [Hkeep _].
  assert (instances
            (run after (nam_destroyInstance h (run before init_state).2)).2 !! h
          = None) as Hgone.
  { apply run_absent; rewrite ?Hkeep, ?Hn; try lia.
    apply destroyed_instance_absent. }
  split; [done|]. unfold nam_hasModel. by rewrite Hgone.
Qed.

(** An observation of the state that every call updates as [f] tells from
    the executed call is, after a run, the fold of [f] over the run. *)
Lemma run_fold {A : Type} (g : state → A) (f : A → event → A) :
  (∀ o s, g (step o s).2 = f (g s) (Event s o (step o s).1)) →
  ∀ ops s, g (run ops s).2 = foldl f (g s) (run ops s).1.
Proof.
  intros Hstep. induction ops as [|o ops IH]; intros s; [done|].
  destruct (run_cons o ops s) as [[Hu ->]|[_ ->]]; cbn [fst snd foldl].
  - by rewrite Hstep, Hu.
  - by rewrite IH, Hstep.
Qed.

Lemma step_live (o : op) (s : state) :
  dom (instances (step o s).2)
  = live_after (dom (instances s)) (Event s o (step o s).1).
Proof. rewrite step_dom. by destruct o. Qed.

(** X6: after any sequence of calls from the start of the process the
    handles in the registry are those obtained by replaying the run: a
    handle enters when [nam_createInstance] returns it and leaves when
    [nam_destroyInstance] is called on it; no other call adds or removes
    one. *)
Theorem registry_follows_run (ops : list op) :
  dom (instances (run ops init_state).2)
  = foldl live_after ∅ (run ops init_state).1.
Proof.
  rewrite (run_fold (λ s, dom (instances s)) live_after) by apply step_live.
  simpl. by rewrite dom_empty_L.
Qed.

Lemma step_loaded (h : Z) (o : op) (s : state) :
  loaded (instances (step o s).2 !! h)
  = model_after h (loaded (instances s !! h)) (Event s o (step o s).1).
Proof.
  destruct o; try done.
  - simpl. unfold model_after. simpl.
    rewrite lookup_insert. by case_decide.
  - rewrite step_state. unfold model_after. cbn [ev_op].
    unfold nam_destroyInstance.
    destruct (instances s !! id) as [slot|] eqn:Hid; simpl.
    + rewrite lookup_delete. by case_decide.
    + case_decide; [subst; by rewrite Hid|done].
  - rewrite step_state, step_load_outcome. unfold model_after.
    cbn [ev_op ev_out].
    destruct (nam_loadModel_cases id jsonStr s)
      as [[Hl _]|[_ [Hl|[Hl|(?&?&?&?&?&_&_&_&Hl)]]]];
      rewrite Hl; simpl; rewrite ?(proj1 (ensure_fast_tanh_frame s)); try done.
    rewrite lookup_insert. by case_decide.
  - rewrite step_state, unloadModel_lookup. unfold model_after. cbn [ev_op].
    case_decide; [|done]. by destruct (instances s !! id).
  - rewrite step_state. unfold model_after. cbn [ev_op].
    unfold nam_process.
    destruct (instances s !! id) as [[dsp|]|] eqn:Hid.
    + destruct (process dsp input output numFrames) as [r dsp'].
      simpl. by eapply loaded_insert_engine.
    + by destruct (memcpy output input (bypass_bytes numFrames)).
    + by destruct (memcpy output input (bypass_bytes numFrames)).
  - rewrite step_state. unfold model_after. cbn [ev_op].
    unfold nam_setSampleRate, reset_all.
    pose proof (reset_each_loaded rate (maxBufferSize s)
                  (ordered_ids (instances s)) h (instances s)) as Hkeep.
    by destruct (reset_each rate (maxBufferSize s) _ (instances s)).
  - rewrite step_state. unfold model_after. cbn [ev_op].
    unfold nam_setMaxBufferSize, reset_all.
    pose proof (reset_each_loaded (sampleRate s) size
                  (ordered_ids (instances s)) h (instances s)) as Hkeep.
    by destruct (reset_each (sampleRate s) size _ (instances s)).
  - rewrite step_state. unfold model_after. cbn [ev_op].
    unfold nam_reset.
    destruct (instances s !! id) as [[dsp|]|] eqn:Hid; try done.
    destruct (Reset dsp (sampleRate s) (maxBufferSize s)) as [r dsp'].
    simpl. by eapply loaded_insert_engine.
Qed.

(** X7: after any sequence of calls from the start of the process,
    [nam_hasModel] of a handle is decided by the last executed call among
    these: a [nam_loadModel] of the handle that returned true (then it is
    true), a [nam_unloadModel] or [nam_destroyInstance] of the handle or a
    [nam_createInstance] that returned it (then it is false); it is false
    when there is none.  A failed load, a call on another handle, a setter,
    [nam_reset] and [nam_process] never change it, however they end. *)
Theorem hasModel_follows_run (ops : list op) (h : Z) :
  nam_hasModel h (run ops init_state).2
  = foldl (model_after h) false (run ops init_state).1.
Proof.
  rewrite nam_hasModel_loaded.
  by rewrite (run_fold (λ s, loaded (instances s !! h)) (model_after h))
    by apply step_loaded.
Qed.

(** ** The configuration *)

Lemma step_config (o : op) (s : state) :
  sampleRate (step o s).2
  = match o with SetSampleRate rate => rate | _ => sampleRate s end
  ∧ maxBufferSize (step o s).2
    = match o with SetMaxBufferSize size => size | _ => maxBufferSize s end.
Proof.
  rewrite step_state. destruct o; try done.
  - unfold nam_destroyInstance. by destruct (instances s !! id).
  - destruct (ensure_fast_tanh_frame s) as (_ & _ & Hr & Hb).
    destruct (nam_loadModel_cases id jsonStr s)
      as [[Hl _]|[_ [Hl|[Hl|(?&?&?&?&?&_&_&_&Hl)]]]];
      by rewrite Hl.
  - unfold nam_unloadModel. by destruct (instances s !! id).
  - unfold nam_process. destruct (instances s !! id) as [[dsp|]|].
    + by destruct (process dsp input output numFrames).
    + by destruct (memcpy output input (bypass_bytes numFrames)).
    + by destruct (memcpy output input (bypass_bytes numFrames)).
  - unfold nam_setSampleRate.
    by destruct (reset_all rate (maxBufferSize s) (instances s)).
  - unfold nam_setMaxBufferSize.
    by destruct (reset_all (sampleRate s) size (instances s)).
  - unfold nam_reset. destruct (instances s !! id) as [[dsp|]|]; try done.
    by destruct (Reset dsp (sampleRate s) (maxBufferSize s)).
Qed.

(** X8: after any sequence of calls from the start of the process,
    [nam_getSampleRate] returns the argument of the last
    [nam_setSampleRate] call executed, [48000.0f] if there was none, and
    [nam_getMaxBufferSize] the argument of the last [nam_setMaxBufferSize]
    call, [128] if there was none; this holds also when that call left by
    an exception of an engine, the value being stored before the loop. *)
Theorem config_follows_run (ops : list op) :
  nam_getSampleRate (run ops init_state).2
  = foldl rate_after float_48000 (run ops init_state).1
  ∧ nam_getMaxBufferSize (run ops init_state).2
    = foldl size_after 128 (run ops init_state).1.
Proof.
  unfold nam_getSampleRate, nam_getMaxBufferSize. split.
  - rewrite (run_fold sampleRate rate_after); [done|].
    intros o s. destruct (step_config o s) as [-> _]. by destruct o.
  - rewrite (run_fold maxBufferSize size_after); [done|].
    intros o s. destruct (step_config o s) as [_ ->]. by destruct o.
Qed.

Lemma reset_each_all_return (rate : float) (size : Z) (ids : list Z) :
  NoDup ids →
  ∀ m, (∀ h dsp, h ∈ ids → m !! h = Some (Some dsp) →
          (Reset dsp rate size).1 = Returns ()) →
       (reset_each rate size ids m).1 = Returns ().
Proof.
  induction 1 as [|id ids Hnotin Hnodup IH]; intros m Hall; [done|]. simpl.
  assert (∀ m', (∀ h, h ≠ id → m' !! h = m !! h) →
                (reset_each rate size ids m').1 = Returns ()) as Hrest.
  { intros m' Hsame. apply IH. intros h dsp Hh Hslot.
    apply (Hall h dsp); [by right|].
    rewrite <- Hsame; [done|]. by intros ->. }
  destruct (m !! id) as [[dsp|]|] eqn:Hid; [|by apply Hrest..].
  specialize (Hall id dsp (list_elem_of_here _ _) Hid).
  destruct (Reset dsp rate size) as [r dsp']. simpl in Hall. subst r.
  apply Hrest. intros h Hne. by rewrite lookup_insert_ne.
Qed.

Lemma reset_all_all_return (rate : float) (size : Z) (m : gmap Z (option DSP)) :
  (∀ h dsp, m !! h = Some (Some dsp) → (Reset dsp rate size).1 = Returns ()) →
  (reset_all rate size m).1 = Returns ().
Proof.
  intros Hall. apply reset_each_all_return; [apply ordered_ids_spec|].
  intros h dsp _. apply Hall.
Qed.

Lemma reset_all_no_engine (rate : float) (size : Z) (m : gmap Z (option DSP)) :
  (∀ h, loaded (m !! h) = false) → reset_all rate size m = (Returns (), m).
Proof.
  intros Hnone.
  assert ((reset_all rate size m).1 = Returns ()) as Hret.
  { apply reset_all_all_return. intros h dsp Hslot.
    specialize (Hnone h). by rewrite Hslot in Hnone. }
  destruct (reset_all rate size m) as [r m'] eqn:Hrun. simpl in Hret. subst r.
  f_equal. apply map_eq. intros h.
  pose proof (reset_all_returns rate size m m' () Hrun h) as Hh.
  specialize (Hnone h). unfold reconfigured in Hh.
  by destruct (m !! h) as [[dsp|]|].
Qed.

(** X9: [nam_setSampleRate] and [nam_setMaxBufferSize] return normally
    whenever [Reset] with the new pair returns on every engine of the
    registry; in particular, when no instance holds a model they return and
    leave the registry exactly as it was. *)
Theorem setters_return_when_engines_do (s : state) :
  (∀ rate,
     (∀ h dsp, instances s !! h = Some (Some dsp) →
        (Reset dsp rate (maxBufferSize s)).1 = Returns ()) →
     (nam_setSampleRate rate s).1 = Returns ())
  ∧ (∀ size,
     (∀ h dsp, instances s !! h = Some (Some dsp) →
        (Reset dsp (sampleRate s) size).1 = Returns ()) →
     (nam_setMaxBufferSize size s).1 = Returns ())
  ∧ ((∀ h, nam_hasModel h s = false) →
     ∀ rate size,
       (nam_setSampleRate rate s).1 = Returns ()
       ∧ instances (nam_setSampleRate rate s).2 = instances s
       ∧ (nam_setMaxBufferSize size s).1 = Returns ()
       ∧ instances (nam_setMaxBufferSize size s).2 = instances s).
Proof.
  split_and!.
  - intros rate Hall. unfold nam_setSampleRate.
    pose proof (reset_all_all_return rate (maxBufferSize s) _ Hall) as Hret.
    by destruct (reset_all rate (maxBufferSize s) (instances s)).
  - intros size Hall. unfold nam_setMaxBufferSize.
    pose proof (reset_all_all_return (sampleRate s) size _ Hall) as Hret.
    by destruct (reset_all (sampleRate s) size (instances s)).
  - intros Hnone rate size.
    unfold nam_setSampleRate, nam_setMaxBufferSize.
    by rewrite !reset_all_no_engine.
Qed.

Lemma increasing_of_ascending (l : list Z) :
  StronglySorted Z.le l → NoDup l → StronglySorted Z.lt l.
Proof.
  induction 1 as [|x l _ IH Hall]; intros Hnodup; constructor.
  - apply IH. by apply NoDup_cons in Hnodup as [_ ?].
  - apply NoDup_cons in Hnodup as [Hx _].
    rewrite Forall_forall in Hall |- *. intros y Hy.
    specialize (Hall y Hy). assert (x ≠ y) by (by intros ->). lia.
Qed.

Lemma reset_each_throws (rate : float) (size : Z) (ids : list Z) :
  StronglySorted Z.lt ids →
  ∀ m m', reset_each rate size ids m = (Throws, m') →
  ∃ h, h ∈ ids
       ∧ (∃ dsp dsp', m !! h = Some (Some dsp)
                      ∧ Reset dsp rate size = (Throws, dsp')
                      ∧ m' !! h = Some (Some dsp'))
       ∧ (∀ k, k ∈ ids → k < h → reconfigured rate size (m !! k) (m' !! k))
       ∧ (∀ k, k ∉ ids ∨ h < k → m' !! k = m !! k).
Proof.
  induction 1 as [|id ids Hsorted IH Hall]; intros m m' Hrun; [done|].
  rewrite Forall_forall in Hall. simpl in Hrun.
  assert (∀ m1, (∀ k, k ≠ id → m1 !! k = m !! k) →
                reconfigured rate size (m !! id) (m1 !! id) →
                reset_each rate size ids m1 = (Throws, m') →
                ∃ h, h ∈ id :: ids
                     ∧ (∃ dsp dsp', m !! h = Some (Some dsp)
                                    ∧ Reset dsp rate size = (Throws, dsp')
                                    ∧ m' !! h = Some (Some dsp'))
                     ∧ (∀ k, k ∈ id :: ids → k < h →
                          reconfigured rate size (m !! k) (m' !! k))
                     ∧ (∀ k, k ∉ id :: ids ∨ h < k → m' !! k = m !! k))
    as Hrest.
  { intros m1 Hsame Hdone Hrun1.
    destruct (IH m1 m' Hrun1) as (h & Hh & (dsp & dsp' & Hslot & HR & Hslot')
                                  & Hlow & Hhigh).
    pose proof (Hall h Hh) as Hlt.
    assert (id ∉ ids) as Hnotin.
    { intros Hin. specialize (Hall id Hin). lia. }
    exists h. split_and!.
    - by right.
    - exists dsp, dsp'. rewrite <- Hsame by lia. done.
    - intros k [->|Hk]%elem_of_cons Hkh.
      + rewrite (Hhigh id) by (by left). done.
      + rewrite <- (Hsame k); [by apply Hlow|].
        intros ->. done.
    - intros k Hk. rewrite Hhigh.
      + apply Hsame. destruct Hk as [Hk|Hk]; [|lia].
        intros ->. apply Hk. by left.
      + destruct Hk as [Hk|Hk]; [left|by right].
        intros Hin. apply Hk. by right. }
  destruct (m !! id) as [[dsp|]|] eqn:Hid.
  - destruct (Reset dsp rate size) as [[[]| |] dsp'] eqn:HR; try done.
    + apply (Hrest (<[id := Some dsp']> m)); [| |done].
      * intros k Hk. by rewrite lookup_insert_ne.
      * rewrite lookup_insert_eq. simpl. by exists dsp'.
    + injection Hrun as <-. exists id. split_and!.
      * by left.
      * exists dsp, dsp'. by rewrite lookup_insert_eq.
      * intros k [->|Hk]%elem_of_cons Hlt; [lia|].
        specialize (Hall k Hk). lia.
      * intros k Hk. rewrite lookup_insert_ne; [done|].
        intros <-. destruct Hk as [Hk|Hk]; [|lia]. apply Hk. by left.
  - by apply (Hrest m).
  - by apply (Hrest m).
Qed.

Lemma reset_all_throws (rate : float) (size : Z) (m m' : gmap Z (option DSP)) :
  reset_all rate size m = (Throws, m') → ∃ h, stopped_at rate size m m' h.
Proof.
  unfold reset_all. intros Hrun.
  destruct (ordered_ids_spec m) as [Hnodup Hin].
  pose proof (increasing_of_ascending _ (ordered_ids_ascending m) Hnodup)
    as Hsorted.
  destruct (reset_each_throws rate size _ Hsorted _ _ Hrun)
    as (h & _ & (dsp & dsp' & Hslot & HR & Hslot') & Hlow & Hhigh).
  exists h, dsp, dsp'. split_and!; try done.
  - intros k Hk.
    destruct (decide (k ∈ ordered_ids m)) as [Hkin|Hkout]; [by apply Hlow|].
    rewrite (Hhigh k) by (by left).
    assert (m !! k = None) as ->; [|done].
    apply eq_None_not_Some. by rewrite <- Hin.
  - intros k Hk. apply Hhigh. by right.
Qed.

(** X10: when [nam_setSampleRate] or [nam_setMaxBufferSize] leaves by an
    exception, the new value is stored all the same, and the registry is cut
    in two at the handle whose engine threw: the engines of the smaller
    handles have been put through [Reset] with the new pair, those of the
    larger handles are untouched and still configured as before. *)
Theorem setter_exception_is_partial (s : state) :
  (∀ rate s', nam_setSampleRate rate s = (Throws, s') →
     sampleRate s' = rate ∧ maxBufferSize s' = maxBufferSize s
     ∧ ∃ h, stopped_at rate (maxBufferSize s) (instances s) (instances s') h)
  ∧ (∀ size s', nam_setMaxBufferSize size s = (Throws, s') →
     sampleRate s' = sampleRate s ∧ maxBufferSize s' = size
     ∧ ∃ h, stopped_at (sampleRate s) size (instances s) (instances s') h).
Proof.
  split.
  - intros rate s'. unfold nam_setSampleRate.
    destruct (reset_all rate (maxBufferSize s) (instances s)) as [r m] eqn:Hrun.
    intros [= -> <-]. simpl. split_and!; try done.
    by apply reset_all_throws.
  - intros size s'. unfold nam_setMaxBufferSize.
    destruct (reset_all (sampleRate s) size (instances s)) as [r m] eqn:Hrun.
    intros [= -> <-]. simpl. split_and!; try done.
    by apply reset_all_throws.
Qed.

(** ** Exceptions *)

Lemma nam_loadModel_catches (id : Z) (jsonStr : string) (s : state) :
  (nam_loadModel id jsonStr s).1 ≠ Throws.
Proof.
  by destruct (nam_loadModel_cases id jsonStr s)
    as [[-> _]|[_ [->|[->|(?&?&?&?&?&_&_&_&->)]]]].
Qed.

(** X11: a call can leave by an exception only if it is [nam_process],
    [nam_setSampleRate], [nam_setMaxBufferSize], [nam_getModelLoudness] or
    [nam_reset], and then no instance is lost or gained: the handles of the
    registry, the counter, the activation flag, [nam_getInstanceCount] and
    [nam_hasModel] of every handle are what they were before the call. *)
Theorem exception_keeps_instances (o : op) (s : state) :
  (step o s).1 = Throws →
  may_throw o = true
  ∧ keeps_shape s (step o s).2
  ∧ keeps_activation s (step o s).2
  ∧ nam_getInstanceCount (step o s).2 = nam_getInstanceCount s
  ∧ ∀ h, nam_hasModel h (step o s).2 = nam_hasModel h s.
Proof.
  intros Hthrows.
  assert (may_throw o = true) as Hmay.
  { destruct o; try done.
    rewrite step_load_outcome in Hthrows.
    pose proof (nam_loadModel_catches id jsonStr s) as Hcatch.
    by destruct (nam_loadModel id jsonStr s).1. }
  assert (keeps_shape s (step o s).2 ∧ keeps_activation s (step o s).2)
    as [Hshape Hact].
  { rewrite step_state. destruct o; try done.
    - apply nam_process_keeps.
    - apply nam_setSampleRate_keeps.
    - apply nam_setMaxBufferSize_keeps.
    - apply nam_reset_keeps. }
  split_and!; try done.
  - unfold nam_getInstanceCount.
    by rewrite <- !(size_dom (D := gset Z)), (proj1 Hshape).
  - intros h. rewrite !nam_hasModel_loaded, step_loaded.
    by destruct o.
Qed.

(** ** The bypass path at its bounds *)

(** X12: on a handle without an engine and for a frame count from [0] to
    below [2^30], [nam_process] never throws and is defined exactly when
    both blocks hold that many samples; with a frame count of [0] it hands
    the output block back untouched, whatever the blocks are. *)
Theorem bypass_needs_the_frames (id : Z) (input output : list float)
    (numFrames : Z) (s : state) :
  nam_hasModel id s = false →
  0 ≤ numFrames < 2 ^ 30 →
  (nam_process id input output numFrames s).1 ≠ Throws
  ∧ (returned (nam_process id input output numFrames s).1 = true
     ↔ numFrames ≤ Z.of_nat (length input)
       ∧ numFrames ≤ Z.of_nat (length output))
  ∧ nam_process id input output 0 s = (Returns output, s).
Proof.
  intros Hno Hn.
  assert (∀ n, nam_process id input output n s
               = match memcpy output input (bypass_bytes n) with
                 | Some out => (Returns out, s)
                 | None => (Undefined, s)
                 end) as Hbypass.
  { intros n. unfold nam_process, nam_hasModel in *.
    by destruct (instances s !! id) as [[dsp|]|]. }
  rewrite !Hbypass. unfold memcpy.
  rewrite bypass_bytes_frames by done.
  split_and!.
  - by case_decide.
  - case_decide; simpl; split; done.
  - replace (bypass_bytes 0 / sizeof_float) with 0 by done.
    rewrite decide_True by lia. simpl. by rewrite drop_0.
Qed.

(** ** Engines between calls *)

(** X14: the engine of an instance is kept between calls of [nam_process]:
    the second of two calls runs the engine in the state the first call
    left it in, also when the first call left by an exception, and the
    registry then holds the state the second call left. *)
Theorem process_streams (id : Z) (dsp : DSP)
    (input1 output1 input2 output2 : list float) (n1 n2 : Z) (s : state) :
  instances s !! id = Some (Some dsp) →
  nam_process id input2 output2 n2 (nam_process id input1 output1 n1 s).2
  = ((process (process dsp input1 output1 n1).2 input2 output2 n2).1,
     set_instances
       (<[id := Some (process (process dsp input1 output1 n1).2
                        input2 output2 n2).2]> (instances s)) s).
Proof.
  intros Hid. unfold nam_process. rewrite Hid.
  destruct (process dsp input1 output1 n1) as [r1 dsp1]. simpl.
  rewrite lookup_insert_eq.
  destruct (process dsp1 input2 output2 n2) as [r2 dsp2]. simpl.
  unfold set_instances. simpl. by rewrite insert_insert_eq.
Qed.

(** X15: setting the sample rate, or the maximum buffer size, to the value
    it already has does to every instance what [nam_reset] does to it: when
    the setter returns, each slot is the one [nam_reset] of that handle
    would have left, and the stored values are unchanged. *)
Theorem same_value_setter_resets (s s' : state) :
  nam_setSampleRate (sampleRate s) s = (Returns (), s')
  ∨ nam_setMaxBufferSize (maxBufferSize s) s = (Returns (), s') →
  sampleRate s' = sampleRate s
  ∧ maxBufferSize s' = maxBufferSize s
  ∧ ∀ h, instances s' !! h = instances (nam_reset h s).2 !! h.
Proof.
  intros Hset.
  assert (sampleRate s' = sampleRate s ∧ maxBufferSize s' = maxBufferSize s
          ∧ reset_all (sampleRate s) (maxBufferSize s) (instances s)
            = (Returns (), instances s')) as (Hr & Hb & Hrun).
  { unfold nam_setSampleRate, nam_setMaxBufferSize in Hset.
    destruct (reset_all (sampleRate s) (maxBufferSize s) (instances s))
      as [r m].
    by destruct Hset as [[= -> <-]|[= -> <-]]. }
  split_and!; try done. intros h.
  pose proof (reset_all_returns _ _ _ _ _ Hrun h) as Hh.
  unfold reconfigured in Hh. unfold nam_reset.
  destruct (instances s !! h) as [[dsp|]|] eqn:Hslot; simpl;
    [|by rewrite Hh, Hslot..].
  destruct Hh as (dsp' & HR & ->). rewrite HR. simpl.
  by rewrite lookup_insert_eq.
Qed.

End NamFurther.

(** * The module on the small collaborator *)

Section ToyRuns.
Local Existing Instance toy_core.

Example wrap_int_max : wrap_int (INT_MAX + 1) = INT_MIN.
Proof. reflexivity. Qed.

Example cast_tenth :
  static_cast_float (S754_finite false 7205759403792794 (-56))
  = S754_finite false 13421773 (-27).
Proof. vm_compute. reflexivity. Qed.

Example three_instances_models :
  map (λ id, nam_hasModel id three_instances) [0; 1; 2; 3]
  = [true; true; false; false]
  ∧ nam_getInstanceCount three_instances = 3.
Proof. vm_compute. done. Qed.

(** The block [1.0, -2.0, 0.5] through an instance without a model, and
    through the handle 9999 that was never issued. *)
Example bypass_fresh_instance :
  nam_process 2 [f_1; f_m2; f_half] [float_0; float_0; float_0] 3 three_instances
  = (Returns [f_1; f_m2; f_half], three_instances).
Proof. vm_compute. reflexivity. Qed.

Example bypass_unknown_handle :
  nam_process 9999 [f_1; f_m2; f_half] [float_0; float_0; float_0] 3 three_instances
  = (Returns [f_1; f_m2; f_half], three_instances).
Proof. vm_compute. reflexivity. Qed.

(** The loaded instance is not bypassed: the small engine writes silence. *)
Example engine_is_used :
  (nam_process 0 [f_1; f_m2; f_half] [f_1; f_1; f_1] 3 three_instances).1
  = Returns [float_0; float_0; float_0].
Proof. vm_compute. reflexivity. Qed.

(** A negative frame count asks [memcpy] for almost the whole address
    space. *)
Example bypass_negative_frames :
  bypass_bytes (-1) = 4294967292
  ∧ (nam_process 2 [f_1] [float_0] (-1) three_instances).1 = Undefined.
Proof. vm_compute. done. Qed.

(** A frame count of [2^30] makes the byte count wrap to zero in [size_t];
    no pair of disjoint blocks of that length fits the address space. *)
Example bypass_bytes_wraps : bypass_bytes (2 ^ 30) = 0.
Proof. reflexivity. Qed.

Lemma process_without_engine_copies_input_witness :
  bypasses 2 [f_1; f_m2; f_half] [float_0; float_0; float_0] 3 three_instances
  ∧ bypasses 9999 [f_1; f_m2; f_half] [float_0; float_0; float_0] 3
      three_instances
  ∧ bypasses 0 [f_1; f_m2; f_half] [float_0; float_0; float_0] 3
      (nam_destroyInstance 0 three_instances).
Proof.
  destruct (process_without_engine_copies_input
              [f_1; f_m2; f_half] [float_0; float_0; float_0] 3)
    as (Hslot & _ & Hdestroyed); [simpl; lia..|done|].
  split_and!.
  - apply Hslot. right. reflexivity.
  - apply Hslot. left. reflexivity.
  - apply Hdestroyed.
Defined.

Lemma loadModel_failure_keeps_slot_witness :
  (nam_loadModel 0 "" three_instances).1 = Returns false
  ∧ (nam_loadModel 0 "null" three_instances).1 = Returns false
  ∧ (nam_loadModel 9999 "amp" three_instances).1 = Returns false
  ∧ instances (nam_loadModel 0 "" three_instances).2 = instances three_instances
  ∧ nam_hasModel 0 (nam_loadModel 0 "" three_instances).2
    = nam_hasModel 0 three_instances.
Proof.
  pose proof (loadModel_failure_keeps_slot 0 "" three_instances) as [Hthrow Hkeep].
  pose proof (loadModel_failure_keeps_slot 0 "null" three_instances) as [Hnull _].
  pose proof (loadModel_failure_keeps_slot 9999 "amp" three_instances)
    as [Hunknown _].
  assert ((nam_loadModel 0 "" three_instances).1 = Returns false) as Hfail.
  { apply Hthrow. right. right. reflexivity. }
  split_and!.
  - exact Hfail.
  - apply Hnull. right. left. reflexivity.
  - apply Hunknown. left. reflexivity.
  - apply (Hkeep Hfail).
  - apply (Hkeep Hfail).
Defined.

Example issued_0123 :
  issued (run [CreateInstance; CreateInstance; DestroyInstance 0;
               CreateInstance; DestroyInstance 2; CreateInstance] init_state).1
  = [0; 1; 2; 3].
Proof. vm_compute. reflexivity. Qed.

Lemma handles_strictly_increasing_witness :
  StronglySorted Z.lt
    (issued (run [CreateInstance; CreateInstance; DestroyInstance 0;
                  CreateInstance; DestroyInstance 2; CreateInstance]
               init_state).1)
  ∧ Forall (λ h, 0 ≤ h)
      (issued (run [CreateInstance; CreateInstance; DestroyInstance 0;
                    CreateInstance; DestroyInstance 2; CreateInstance]
                 init_state).1)
  ∧ NoDup
      (issued (run [CreateInstance; CreateInstance; DestroyInstance 0;
                    CreateInstance; DestroyInstance 2; CreateInstance]
                 init_state).1).
Proof.
  apply (handles_strictly_increasing
           [CreateInstance; CreateInstance; DestroyInstance 0;
            CreateInstance; DestroyInstance 2; CreateInstance]).
  by vm_compute.
Defined.

(** A first [nam_loadModel] that fails: the empty text makes the factory
    throw, the call returns false, no model was ever loaded, and the flag is
    up all the same. *)
Lemma failed_load_raises_flag :
  fastTanhEnabled init_state = false
  ∧ map ev_out (run [CreateInstance; LoadModel 0 ""; HasModel 0] init_state).1
    = [Returns (VInt 0); Returns (VBool false); Returns (VBool false)]
  ∧ fastTanhEnabled
      (run [CreateInstance; LoadModel 0 ""; HasModel 0] init_state).2 = true.
Proof. vm_compute. done. Qed.

Lemma fast_tanh_flag_transitions_witness :
  fastTanhEnabled
    (step (LoadModel 0 "") (nam_createInstance init_state).2).2 = true
  ∧ fastTanhEnabled (step (LoadModel 9999 "amp") init_state).2 = false
  ∧ fastTanhEnabled (step (UnloadModel 0) three_instances).2 = true
  ∧ switched_once three_instances.
Proof.
  destruct fast_tanh_flag_transitions as (_ & Hstay & Hraise & _ & _ & Honce).
  split_and!.
  - apply Hraise; [reflexivity|].
    exists 0, "". split; [reflexivity|]. vm_compute. by eexists.
  - apply not_true_is_false. intros Hup.
    apply Hraise in Hup; [|reflexivity].
    destruct Hup as (id & jsonStr & [= <- _] & [slot Hslot]).
    by vm_compute in Hslot.
  - apply Hstay. reflexivity.
  - apply Honce.
Defined.

(** [setSampleRate(44100)] then [setMaxBufferSize(256)] with one model
    loaded before and one after: both engines end up configured for
    [(44100, 256)]. *)
Example config_44100_256 :
  let s := (run [CreateInstance; LoadModel 0 "amp"; CreateInstance;
                 SetSampleRate f_44100; SetMaxBufferSize 256;
                 LoadModel 1 "quiet"] init_state).2 in
  instances s !! 0 = Some (Some (ToyDsp f_44100 256 true (Some minus_18)))
  ∧ instances s !! 1 = Some (Some (ToyDsp f_44100 256 true None))
  ∧ nam_getSampleRate s = f_44100 ∧ nam_getMaxBufferSize s = 256.
Proof. vm_compute. done. Qed.

Lemma config_applied_to_engines_witness :
  reconfigured f_44100 128
    (instances three_instances !! 0)
    (instances (nam_setSampleRate f_44100 three_instances).2 !! 0)
  ∧ reconfigured float_48000 256
      (instances three_instances !! 1)
      (instances (nam_setMaxBufferSize 256 three_instances).2 !! 1)
  ∧ instances (nam_loadModel 2 "amp" three_instances).2 !! 2
    = Some (Some (ToyDsp float_48000 128 true (Some minus_18))).
Proof.
  destruct (config_applied_to_engines three_instances)
    as (Hrate & Hsize & Hload).
  destruct (Hrate f_44100 (nam_setSampleRate f_44100 three_instances).2)
    as (_ & _ & Hall); [by vm_compute|].
  destruct (Hsize 256 (nam_setMaxBufferSize 256 three_instances).2)
    as (_ & _ & Hall'); [by vm_compute|].
  destruct (Hload 2 "amp" (nam_loadModel 2 "amp" three_instances).2)
    as (_ & _ & dsp & dsp1 & dsp2 & Hget & HR & HP & Hslot); [by vm_compute|].
  split_and!.
  - apply Hall.
  - apply Hall'.
  - etrans; [exact Hslot|]. vm_compute in Hget. injection Hget as <-.
    vm_compute in HR. injection HR as <-.
    vm_compute in HP. injection HP as <-. reflexivity.
Defined.

Lemma instance_count_balance_witness :
  nam_getInstanceCount
    (run [CreateInstance; CreateInstance; DestroyInstance 0; UnloadModel 1;
          DestroyInstance 0; DestroyInstance 7; CreateInstance] init_state).2
  = Z.of_nat (creates_made
      (run [CreateInstance; CreateInstance; DestroyInstance 0; UnloadModel 1;
            DestroyInstance 0; DestroyInstance 7; CreateInstance] init_state).1)
    - Z.of_nat (destroys_matched
      (run [CreateInstance; CreateInstance; DestroyInstance 0; UnloadModel 1;
            DestroyInstance 0; DestroyInstance 7; CreateInstance] init_state).1).
Proof.
  apply (instance_count_balance
           [CreateInstance; CreateInstance; DestroyInstance 0; UnloadModel 1;
            DestroyInstance 0; DestroyInstance 7; CreateInstance]).
  by vm_compute.
Defined.

Example instance_count_3_minus_1 :
  let r := run [CreateInstance; CreateInstance; DestroyInstance 0; UnloadModel 1;
                DestroyInstance 0; DestroyInstance 7; CreateInstance] init_state in
  creates_made r.1 = 3%nat ∧ destroys_matched r.1 = 1%nat
  ∧ nam_getInstanceCount r.2 = 2.
Proof. vm_compute. done. Qed.

Lemma unloadModel_leaves_empty_slot_witness :
  instances (nam_unloadModel 0 three_instances) !! 0 = Some None
  ∧ nam_hasModel 0 (nam_unloadModel 0 three_instances) = false
  ∧ bypasses 0 [f_1; f_m2; f_half] [float_0; float_0; float_0] 3
      (nam_unloadModel 0 three_instances)
  ∧ nam_unloadModel 2 three_instances = three_instances
  ∧ nam_unloadModel 9999 three_instances = three_instances.
Proof.
  destruct (unloadModel_leaves_empty_slot 0 three_instances)
    as (_ & Hslot & Hno & Hbypass & _).
  destruct (unloadModel_leaves_empty_slot 2 three_instances)
    as (_ & _ & _ & _ & Hempty).
  destruct (unloadModel_leaves_empty_slot 9999 three_instances)
    as (_ & _ & _ & _ & Hunknown).
  split_and!.
  - apply Hslot. vm_compute. by eexists.
  - exact Hno.
  - apply Hbypass; [simpl; lia..|done].
  - apply Hempty. reflexivity.
  - apply Hunknown. reflexivity.
Defined.

Lemma loudness_queries_witness :
  (nam_getModelLoudness 0 three_instances
   = Returns (S754_finite true 9437184 (-19))
   ∧ nam_hasModelLoudness 0 three_instances = true)
  ∧ (nam_getModelLoudness 1 three_instances = Returns float_0
     ∧ nam_hasModelLoudness 1 three_instances = false)
  ∧ (nam_getModelLoudness 2 three_instances = Returns float_0
     ∧ nam_hasModelLoudness 2 three_instances = false)
  ∧ (nam_getModelLoudness 9999 three_instances = Returns float_0
     ∧ nam_hasModelLoudness 9999 three_instances = false).
Proof.
  pose proof (loudness_queries 0 three_instances) as (_ & Hloud & _).
  pose proof (loudness_queries 1 three_instances) as [Hquiet _].
  pose proof (loudness_queries 2 three_instances) as [Hempty _].
  pose proof (loudness_queries 9999 three_instances) as [Hunknown _].
  split_and!.
  - apply (Hloud (ToyDsp float_48000 128 true (Some minus_18)) minus_18);
      reflexivity.
  - apply (Hloud (ToyDsp float_48000 128 true (Some minus_18)) minus_18);
      reflexivity.
  - apply Hquiet. right. right.
    exists (ToyDsp float_48000 128 true None). split; reflexivity.
  - apply Hquiet. right. right.
    exists (ToyDsp float_48000 128 true None). split; reflexivity.
  - apply Hempty. right. left. reflexivity.
  - apply Hempty. right. left. reflexivity.
  - apply Hunknown. left. reflexivity.
  - apply Hunknown. left. reflexivity.
Defined.

Lemma destroyInstance_idempotent_witness :
  nam_destroyInstance 9999 three_instances = three_instances
  ∧ nam_destroyInstance 0 (nam_destroyInstance 0 three_instances)
    = nam_destroyInstance 0 three_instances.
Proof.
  destruct (destroyInstance_idempotent 9999 three_instances) as [Hunknown _].
  destruct (destroyInstance_idempotent 0 three_instances) as [_ Htwice].
  split.
  - apply Hunknown. reflexivity.
  - exact Htwice.
Defined.

Lemma per_handle_calls_frame_witness :
  untouched 1 three_instances (nam_loadModel 0 "quiet" three_instances).2
  ∧ untouched 1 three_instances (nam_unloadModel 0 three_instances)
  ∧ untouched 1 three_instances (nam_reset 0 three_instances).2
  ∧ untouched 1 three_instances (nam_destroyInstance 0 three_instances)
  ∧ untouched 1 three_instances
      (nam_process 0 [f_1; f_m2; f_half] [float_0; float_0; float_0] 3
         three_instances).2.
Proof.
  destruct (per_handle_calls_frame 0 1 three_instances)
    as (Hload & Hunload & Hreset & Hdestroy & Hprocess); [lia|].
  split_and!.
  - apply Hload.
  - exact Hunload.
  - exact Hreset.
  - exact Hdestroy.
  - apply Hprocess.
Defined.

End ToyRuns.

(** * Further runs on the two collaborators *)

Section FurtherRuns.

(** The block size 256 is too large for the engine of handle 1: the setter
    leaves by its exception with 256 stored, the engine of handle 0
    reconfigured and the engine of handle 2 not reached. *)
Example setMaxBufferSize_stops_at_1 :
  (nam_setMaxBufferSize 256 large_small_large).1 = Throws
  ∧ nam_getMaxBufferSize (nam_setMaxBufferSize 256 large_small_large).2 = 256
  ∧ instances (nam_setMaxBufferSize 256 large_small_large).2 !! 0
    = Some (Some (FragileDsp 4096 256))
  ∧ instances (nam_setMaxBufferSize 256 large_small_large).2 !! 1
    = Some (Some (FragileDsp 128 128))
  ∧ instances (nam_setMaxBufferSize 256 large_small_large).2 !! 2
    = Some (Some (FragileDsp 4096 128)).
Proof. vm_compute. done. Qed.

Lemma handles_count_from_zero_witness :
  issued (run (core := toy_core)
            [CreateInstance; CreateInstance; DestroyInstance 0;
             CreateInstance; DestroyInstance 2; CreateInstance] init_state).1
  = seqZ 0 (Z.of_nat (creates_made
      (run (core := toy_core)
         [CreateInstance; CreateInstance; DestroyInstance 0;
          CreateInstance; DestroyInstance 2; CreateInstance] init_state).1))
  ∧ nextInstanceId
      (run (core := toy_core)
         [CreateInstance; CreateInstance; DestroyInstance 0;
          CreateInstance; DestroyInstance 2; CreateInstance] init_state).2
    = Z.of_nat (creates_made
        (run (core := toy_core)
           [CreateInstance; CreateInstance; DestroyInstance 0;
            CreateInstance; DestroyInstance 2; CreateInstance] init_state).1).
Proof.
  apply (handles_count_from_zero (core := toy_core)
           [CreateInstance; CreateInstance; DestroyInstance 0;
            CreateInstance; DestroyInstance 2; CreateInstance]).
  by vm_compute.
Defined.

Lemma destroyed_handle_stays_unknown_witness :
  instances
    (run [CreateInstance; LoadModel 0 "amp"; LoadModel 3 "amp"; CreateInstance]
       (nam_destroyInstance 0
          (run (core := toy_core)
             [CreateInstance; LoadModel 0 "amp"; CreateInstance]
             init_state).2)).2 !! 0 = None
  ∧ nam_hasModel 0
      (run [CreateInstance; LoadModel 0 "amp"; LoadModel 3 "amp"; CreateInstance]
         (nam_destroyInstance 0
            (run (core := toy_core)
               [CreateInstance; LoadModel 0 "amp"; CreateInstance]
               init_state).2)).2 = false.
Proof.
  apply (destroyed_handle_stays_unknown (core := toy_core)
           [CreateInstance; LoadModel 0 "amp"; CreateInstance]
           [CreateInstance; LoadModel 0 "amp"; LoadModel 3 "amp"; CreateInstance]
           0).
  - by vm_compute.
  - vm_compute. constructor.
Defined.

Lemma setters_return_when_engines_do_witness :
  (nam_setSampleRate f_44100 three_instances).1 = Returns ()
  ∧ (nam_setMaxBufferSize 64 three_instances).1 = Returns ()
  ∧ instances
      (nam_setSampleRate f_44100
         (nam_createInstance (core := toy_core) init_state).2).2
    = instances (nam_createInstance (core := toy_core) init_state).2.
Proof.
  destruct (setters_return_when_engines_do three_instances)
    as (Hrate & Hsize & _).
  destruct (setters_return_when_engines_do
              (nam_createInstance (core := toy_core) init_state).2)
    as (_ & _ & Hnone).
  assert (∀ h, nam_hasModel h
                 (nam_createInstance (core := toy_core) init_state).2 = false)
    as Hempty.
  { intros h. unfold nam_hasModel. simpl. rewrite lookup_insert.
    case_decide; [done|]. by rewrite lookup_empty. }
  split_and!.
  - apply Hrate. intros h dsp _. reflexivity.
  - apply Hsize. intros h dsp _. reflexivity.
  - apply (Hnone Hempty f_44100 0).
Defined.

Lemma setter_exception_is_partial_witness :
  maxBufferSize (nam_setMaxBufferSize 256 large_small_large).2 = 256
  ∧ ∃ h, stopped_at float_48000 256 (instances large_small_large)
           (instances (nam_setMaxBufferSize 256 large_small_large).2) h.
Proof.
  destruct (setter_exception_is_partial large_small_large) as [_ Hsize].
  destruct (Hsize 256 (nam_setMaxBufferSize 256 large_small_large).2)
    as (_ & Hstored & Hcut); [by vm_compute|].
  split; [exact Hstored|exact Hcut].
Defined.

Lemma exception_keeps_instances_witness :
  may_throw (SetMaxBufferSize 256) = true
  ∧ keeps_shape large_small_large
      (step (SetMaxBufferSize 256) large_small_large).2
  ∧ keeps_activation large_small_large
      (step (SetMaxBufferSize 256) large_small_large).2
  ∧ nam_getInstanceCount (step (SetMaxBufferSize 256) large_small_large).2
    = nam_getInstanceCount large_small_large
  ∧ nam_hasModel 2 (step (SetMaxBufferSize 256) large_small_large).2
    = nam_hasModel 2 large_small_large.
Proof.
  destruct (exception_keeps_instances (SetMaxBufferSize 256) large_small_large)
    as (Hmay & Hshape & Hact & Hcount & Hmodel); [by vm_compute|].
  split_and!; [exact Hmay|exact Hshape|exact Hact|exact Hcount|apply Hmodel].
Defined.

Lemma bypass_needs_the_frames_witness :
  (nam_process 2 [f_1; f_m2] [float_0; float_0; float_0] 3 three_instances).1
  ≠ Throws
  ∧ (returned
       (nam_process 2 [f_1; f_m2] [float_0; float_0; float_0] 3
          three_instances).1 = true
     ↔ 3 ≤ Z.of_nat (length [f_1; f_m2])
       ∧ 3 ≤ Z.of_nat (length [float_0; float_0; float_0]))
  ∧ nam_process 2 [f_1; f_m2] [float_0; float_0; float_0] 0 three_instances
    = (Returns [float_0; float_0; float_0], three_instances).
Proof.
  apply (bypass_needs_the_frames 2 [f_1; f_m2] [float_0; float_0; float_0] 3
           three_instances); [reflexivity|lia].
Defined.

(** Two samples do not make three frames. *)
Example bypass_short_input :
  (nam_process 2 [f_1; f_m2] [float_0; float_0; float_0] 3 three_instances).1
  = Undefined.
Proof. vm_compute. reflexivity. Qed.

Lemma process_streams_witness :
  nam_process 0 [f_half] [float_0] 1
    (nam_process 0 [f_1; f_m2] [float_0; float_0] 300 large_small_large).2
  = ((fragile_process
        (fragile_process (FragileDsp 4096 128)
           [f_1; f_m2] [float_0; float_0] 300).2
        [f_half] [float_0] 1).1,
     set_instances
       (<[0 := Some (fragile_process
                       (fragile_process (FragileDsp 4096 128)
                          [f_1; f_m2] [float_0; float_0] 300).2
                       [f_half] [float_0] 1).2]>
          (instances large_small_large)) large_small_large).
Proof.
  apply (process_streams (core := fragile_core) 0 (FragileDsp 4096 128)).
  reflexivity.
Defined.

(** The first call asks for more frames than the engine is configured for
    and throws; the second call is served by the same engine. *)
Example process_after_exception :
  (nam_process 0 [f_1; f_m2] [float_0; float_0] 300 large_small_large).1
  = Throws
  ∧ (nam_process 0 [f_half] [float_0] 1
       (nam_process 0 [f_1; f_m2] [float_0; float_0] 300 large_small_large).2).1
    = Returns [f_half].
Proof. vm_compute. done. Qed.

Lemma same_value_setter_resets_witness :
  sampleRate (nam_setSampleRate float_48000 three_instances).2
  = sampleRate three_instances
  ∧ maxBufferSize (nam_setSampleRate float_48000 three_instances).2
    = maxBufferSize three_instances
  ∧ instances (nam_setSampleRate float_48000 three_instances).2 !! 1
    = instances (nam_reset 1 three_instances).2 !! 1.
Proof.
  destruct (same_value_setter_resets three_instances
              (nam_setSampleRate float_48000 three_instances).2)
    as (Hr & Hb & Hslots); [left; by vm_compute|].
  split_and!; [exact Hr|exact Hb|apply Hslots].
Defined.

(** [nam_hasModel] and the registry replayed from a run. *)
Example histories_of_a_run :
  let r := run (core := toy_core)
             [CreateInstance; LoadModel 0 "amp"; CreateInstance;
              LoadModel 1 ""; SetSampleRate f_44100; UnloadModel 0;
              LoadModel 0 "quiet"; DestroyInstance 1] init_state in
  foldl (model_after 0) false r.1 = true
  ∧ foldl (model_after 1) false r.1 = false
  ∧ elements (foldl live_after ∅ r.1) = [0]
  ∧ foldl rate_after float_48000 r.1 = f_44100
  ∧ foldl size_after 128 r.1 = 128.
Proof. vm_compute. done. Qed.

End FurtherRuns.
